(** * ardoqpy: a shallow embedding of the Ardoq REST client

    The Python module [ardoqpy/ardoqpy.py] is a thin client over the
    [requests] library.  Python values are embedded as a JSON-shaped
    inductive type, exceptions as a result type, and the mutable client
    object together with the log of requests handed to the HTTP session as
    an explicit state that survives a raised exception. *)

From Stdlib Require Import ZArith List String Ascii Bool Lia.
From Stdlib Require Import Floats.SpecFloat.
Import ListNotations.
Open Scope string_scope.
Open Scope Z_scope.

(** ** Python values *)

(** The values the client handles: [None], and what [json] parsing
    produces.  A [dict] keeps its insertion order, with string keys. *)
#[warnings="-register-all"]
Inductive value : Type :=
| VNone
| VBool (b : bool)
| VInt (n : Z)
| VFloat (f : spec_float)
| VStr (s : string)
| VList (l : list value)
| VDict (d : list (string * value)).

Definition dict : Type := list (string * value).

Definition is_None (v : value) : bool :=
  match v with VNone => true | _ => false end.

Fixpoint dict_get (k : string) (d : dict) : option value :=
  match d with
  | [] => None
  | (k', v) :: d' => if String.eqb k' k then Some v else dict_get k d'
  end.

(** [d[k] = v]: an existing key keeps its place, a new one goes last. *)
Fixpoint dict_set (k : string) (v : value) (d : dict) : dict :=
  match d with
  | [] => [(k, v)]
  | (k', v') :: d' =>
      if String.eqb k' k then (k', v) :: d' else (k', v') :: dict_set k v d'
  end.

(** [d.update(other)] *)
Definition dict_update (d other : dict) : dict :=
  fold_left (fun acc kv => dict_set (fst kv) (snd kv) acc) other d.

(** [int == float]: the float is exactly that integer. *)
Definition float_int_eqb (f : spec_float) (z : Z) : bool :=
  match f with
  | S754_zero _ => z =? 0
  | S754_finite s m e =>
      let mz := if s then Z.neg m else Z.pos m in
      if 0 <=? e then mz * 2 ^ e =? z else mz =? z * 2 ^ (- e)
  | _ => false
  end.

(** Python's [==] on these values.  [bool] is a subclass of [int];
    dictionaries compare without regard to order. *)
Fixpoint py_eq (a b : value) {struct a} : bool :=
  match a, b with
  | VNone, VNone => true
  | VBool x, VBool y => Bool.eqb x y
  | VBool x, VInt y => Z.b2z x =? y
  | VInt x, VBool y => x =? Z.b2z y
  | VInt x, VInt y => x =? y
  | VBool x, VFloat g => float_int_eqb g (Z.b2z x)
  | VInt x, VFloat g => float_int_eqb g x
  | VFloat f, VBool y => float_int_eqb f (Z.b2z y)
  | VFloat f, VInt y => float_int_eqb f y
  | VFloat f, VFloat g => SFeqb f g
  | VStr s, VStr t => String.eqb s t
  | VList l, VList m =>
      (fix all2 (l m : list value) {struct l} : bool :=
         match l, m with
         | [], [] => true
         | x :: l', y :: m' => py_eq x y && all2 l' m'
         | _, _ => false
         end) l m
  | VDict d, VDict e =>
      (List.length d =? List.length e)%nat &&
      (fix sub (d : list (string * value)) {struct d} : bool :=
         match d with
         | [] => true
         | (k, x) :: d' =>
             match dict_get k e with
             | Some y => py_eq x y
             | None => false
             end && sub d'
         end) d
  | _, _ => false
  end.

(** ** Exceptions *)

Inductive exn_class : Type :=
| ArdoqClientException
| AuthorizationError
| NotFoundError
| ServiceUnavailable
| BadRequest
| TypeError
| KeyError
| IndexError
| JSONDecodeError
| RequestException.

(** The class statements of the module: four subclasses of the client's
    exception. *)
Definition base_class (c : exn_class) : option exn_class :=
  match c with
  | AuthorizationError | NotFoundError | ServiceUnavailable | BadRequest =>
      Some ArdoqClientException
  | _ => None
  end.

Definition specialized (c : exn_class) : bool :=
  match base_class c with Some _ => true | None => false end.

(** An exception instance: its class and the argument it was built with
    (the message of a built-in exception is not modelled: [VNone]). *)
Record exn : Type := Exn { exn_type : exn_class; exn_arg : value }.

Inductive result (A : Type) : Type :=
| Ok (a : A)
| Raised (e : exn).
Arguments Ok {A} a.
Arguments Raised {A} e.

Definition rbind {A B} (r : result A) (k : A -> result B) : result B :=
  match r with Ok a => k a | Raised e => Raised e end.

(** ** Built-in operations the client uses *)

(** [s + v] for a [str] [s]: concatenation, or [TypeError]. *)
Definition str_add (s : string) (v : value) : result string :=
  match v with
  | VStr t => Ok (s ++ t)
  | _ => Raised (Exn TypeError VNone)
  end.

(** [v + s] for a [str] [s]. *)
Definition add_str (v : value) (s : string) : result string :=
  match v with
  | VStr t => Ok (t ++ s)
  | _ => Raised (Exn TypeError VNone)
  end.

Fixpoint chars (s : string) : list value :=
  match s with
  | EmptyString => []
  | String c s' => VStr (String c EmptyString) :: chars s'
  end.

(** What a [for] loop sees. *)
Definition py_iter (v : value) : result (list value) :=
  match v with
  | VList l => Ok l
  | VDict d => Ok (map (fun kv => VStr (fst kv)) d)
  | VStr s => Ok (chars s)
  | _ => Raised (Exn TypeError VNone)
  end.

(** A sequence index, negative ones counting from the end. *)
Definition seq_index {A} (l : list A) (i : Z) : option A :=
  let n := Z.of_nat (List.length l) in
  if (0 <=? i) && (i <? n) then nth_error l (Z.to_nat i)
  else if (- n <=? i) && (i <? 0) then nth_error l (Z.to_nat (n + i))
  else None.

(** An [int] (or [bool]) used as an index. *)
Definition as_index (k : value) : option Z :=
  match k with
  | VInt i => Some i
  | VBool b => Some (Z.b2z b)
  | _ => None
  end.

Definition seq_getitem (l : list value) (k : value) : result value :=
  match as_index k with
  | Some i =>
      match seq_index l i with
      | Some v => Ok v
      | None => Raised (Exn IndexError VNone)
      end
  | None => Raised (Exn TypeError VNone)
  end.

(** [c[k]] *)
Definition py_getitem (c k : value) : result value :=
  match c with
  | VDict d =>
      match k with
      | VStr s =>
          match dict_get s d with
          | Some v => Ok v
          | None => Raised (Exn KeyError k)
          end
      | VList _ | VDict _ => Raised (Exn TypeError VNone)
      | _ => Raised (Exn KeyError k)
      end
  | VList l => seq_getitem l k
  | VStr s => seq_getitem (chars s) k
  | _ => Raised (Exn TypeError VNone)
  end.

(** ** The [requests] session *)

Inductive method : Type := GET | POST | PUT | DELETE.

(** Header names compare without regard to case. *)
Definition lower_ascii (c : ascii) : ascii :=
  let n := nat_of_ascii c in
  if ((65 <=? n) && (n <=? 90))%nat then ascii_of_nat (n + 32) else c.

Fixpoint lower (s : string) : string :=
  match s with
  | EmptyString => EmptyString
  | String c s' => String (lower_ascii c) (lower s')
  end.

Definition header_eqb (a b : string) : bool := String.eqb (lower a) (lower b).

Definition headers_t : Type := list (string * string).

Fixpoint header_get (k : string) (h : headers_t) : option string :=
  match h with
  | [] => None
  | (k', v) :: h' => if header_eqb k' k then Some v else header_get k h'
  end.

Fixpoint header_set (k v : string) (h : headers_t) : headers_t :=
  match h with
  | [] => [(k, v)]
  | (k', v') :: h' =>
      if header_eqb k' k then (k, v) :: h' else (k', v') :: header_set k v h'
  end.

Definition headers_update (h other : headers_t) : headers_t :=
  fold_left (fun acc kv => header_set (fst kv) (snd kv) acc) other h.

Record Session : Type := { headers : headers_t }.

(** What a call of [session.get], [.post], [.put] or [.delete] hands to the
    network: the verb, the URL, the [params] and [json] keyword arguments,
    and the session's headers. *)
Record Request : Type := {
  verb : method;
  url : string;
  params : dict;
  json : option value;
  req_headers : headers_t
}.

Record Response : Type := {
  status_code : Z;
  reason : string;
  text : string
}.

(** ** The client object and the state of a run *)

Record ArdoqClient : Type := {
  baseurl : string;
  token : value;
  org : value;
  session : Session;
  workspaces : value;
  workspace : value;
  model : value
}.

Definition with_workspaces (v : value) (c : ArdoqClient) : ArdoqClient :=
  {| baseurl := baseurl c; token := token c; org := org c;
     session := session c;
     workspaces := v; workspace := workspace c; model := model c |}.

Definition with_workspace (v : value) (c : ArdoqClient) : ArdoqClient :=
  {| baseurl := baseurl c; token := token c; org := org c;
     session := session c;
     workspaces := workspaces c; workspace := v; model := model c |}.

Definition with_model (v : value) (c : ArdoqClient) : ArdoqClient :=
  {| baseurl := baseurl c; token := token c; org := org c;
     session := session c;
     workspaces := workspaces c; workspace := workspace c; model := v |}.

(** The client and every request issued so far, oldest first. *)
Record World : Type := { self : ArdoqClient; sent : list Request }.

(** A method body: it may raise, and what it did to the client and to the
    network before raising stays done. *)
Definition M (A : Type) : Type := World -> result A * World.

Definition ret {A} (a : A) : M A := fun w => (Ok a, w).

Definition raise {A} (c : exn_class) (arg : value) : M A :=
  fun w => (Raised (Exn c arg), w).

Definition bind {A B} (m : M A) (k : A -> M B) : M B :=
  fun w =>
    match m w with
    | (Ok a, w') => k a w'
    | (Raised e, w') => (Raised e, w')
    end.

Definition lift {A} (r : result A) : M A := fun w => (r, w).

Definition get_self : M ArdoqClient := fun w => (Ok (self w), w).

Definition set_self (f : ArdoqClient -> ArdoqClient) : M unit :=
  fun w => (Ok tt, {| self := f (self w); sent := sent w |}).

Declare Scope py_scope.
Delimit Scope py_scope with py.
Notation "x <- m ;; k" := (bind m (fun x => k))
  (at level 61, m at next level, right associativity) : py_scope.
Notation "m ;;; k" := (bind m (fun _ => k))
  (at level 61, right associativity) : py_scope.
Open Scope py_scope.

(** Outside the module: [json.loads] as [Response.json] uses it, the
    network (what comes back for a request, given the requests before it:
    a response, or the exception [requests] raises), and the headers a new
    [requests.Session] starts with. *)
Class Requests : Type := {
  json_loads : string -> option value;
  transport : list Request -> Request -> result Response;
  default_headers : headers_t
}.

Section Client.

Context {R : Requests}.

(** [resp.json()] *)
Definition Response_json (resp : Response) : result value :=
  match json_loads (text resp) with
  | Some v => Ok v
  | None => Raised (Exn JSONDecodeError VNone)
  end.

(** [requests.Session()] *)
Definition new_Session : Session := {| headers := default_headers |}.

(** [session.request(verb, url, params=..., json=...)] *)
Definition session_request (m : method) (u : string) (body : option value)
    (kwargs : dict) : M Response :=
  fun w =>
    let r := {| verb := m; url := u; params := kwargs; json := body;
                req_headers := headers (session (self w)) |} in
    (transport (sent w) r, {| self := self w; sent := sent w ++ [r] |}).

(** ** [ArdoqClient] *)

Definition default_hosturl : value := VStr "https://app.ardoq.com/".
Definition default_token : value := VNone.
Definition default_org : value := VStr "ardoq".

Definition __init__ (hosturl token org : value) : result ArdoqClient :=
  rbind (add_str hosturl "/api/") (fun baseurl =>
  let session := new_Session in
  rbind (str_add "Token token=" token) (fun auth =>
  let _headers := [("Authorization", auth)] in
  let session := {| headers := headers_update (headers session) _headers |} in
  Ok {| baseurl := baseurl; token := token; org := org; session := session;
        workspaces := VNone; workspace := VNone; model := VNone |})).

Definition _unwrap_response (resp : Response) : result value :=
  let code := status_code resp in
  if (code =? 200) || (code =? 201) then Response_json resp
  else if code =? 204 then Ok (VDict [])
  else Raised (Exn ArdoqClientException
                 (VDict [("code", VInt code);
                         ("reason", VStr (reason resp));
                         ("text", VStr (text resp))])).

Definition _get (resrc : string) (kwargs : dict) : M value :=
  c <- get_self ;;
  let url := baseurl c ++ resrc in
  let kwargs := dict_update kwargs [("org", org c)] in
  resp <- session_request GET url None kwargs ;;
  lift (_unwrap_response resp).

Definition _post (resrc : string) (payload : value) (kwargs : dict) : M value :=
  c <- get_self ;;
  let url := baseurl c ++ resrc in
  let kwargs := dict_update kwargs [("org", org c)] in
  resp <- session_request POST url (Some payload) kwargs ;;
  lift (_unwrap_response resp).

Definition _put (resrc : string) (payload : value) (kwargs : dict) : M value :=
  c <- get_self ;;
  let url := baseurl c ++ resrc in
  let kwargs := dict_update kwargs [("org", org c)] in
  resp <- session_request PUT url (Some payload) kwargs ;;
  lift (_unwrap_response resp).

Definition _delete (resrc : string) (kwargs : dict) : M value :=
  c <- get_self ;;
  let url := baseurl c ++ resrc in
  let kwargs := dict_update kwargs [("org", org c)] in
  resp <- session_request DELETE url None kwargs ;;
  lift (_unwrap_response resp).

Definition get_workspaces : M value :=
  v <- _get "workspace" [] ;;
  set_self (with_workspaces v) ;;;
  c <- get_self ;;
  ret (workspaces c).

(** The loop of [get_workspace] over [enumerate(self.workspaces)], from
    position [i] on, with the current [ws_index]. *)
Fixpoint scan_workspaces (ws_id : value) (items : list value) (i : nat)
    (ws_index : option nat) : M (option nat) :=
  match items with
  | [] => ret ws_index
  | v :: rest =>
      id <- lift (py_getitem v (VStr "_id")) ;;
      if py_eq id ws_id then
        c <- get_self ;;
        e <- lift (py_getitem (workspaces c) (VInt (Z.of_nat i))) ;;
        set_self (with_workspace e) ;;;
        scan_workspaces ws_id rest (S i) (Some i)
      else scan_workspaces ws_id rest (S i) ws_index
  end.

Definition is_none {A} (o : option A) : bool :=
  match o with None => true | Some _ => false end.

Definition get_workspace (ws_id : value) : M value :=
  if is_None ws_id then
    raise ArdoqClientException (VStr "need an id for get_workspace")
  else
    c <- get_self ;;
    ws_index <-
      (if negb (is_None (workspaces c)) then
         items <- lift (py_iter (workspaces c)) ;;
         scan_workspaces ws_id items 0 None
       else ret None) ;;
    c <- get_self ;;
    (if is_none ws_index || is_None (workspaces c) then
       resrc <- lift (str_add ("workspace" ++ "/") ws_id) ;;
       v <- _get resrc [] ;;
       set_self (with_workspace v)
     else ret tt) ;;;
    c <- get_self ;;
    ret (workspace c).

Definition create_workspace (ws : value) : M value :=
  if is_None ws then
    raise ArdoqClientException (VStr "must provide a workspace")
  else
    res <- _post "workspace" ws [] ;;
    ret res.

Definition del_workspace (ws_id : value) : M value :=
  if is_None ws_id then
    raise ArdoqClientException (VStr "must provide a workspace id")
  else
    resrc <- lift (str_add "workspace/" ws_id) ;;
    res <- _delete resrc [] ;;
    ret res.

Definition get_model (ws_id : value) : M value :=
  if is_None ws_id then
    raise ArdoqClientException (VStr "must provide a workspaceID")
  else
    resrc <- lift (str_add ("workspace" ++ "/") ws_id) ;;
    v <- _get resrc [] ;;
    set_self (with_workspace v) ;;;
    c <- get_self ;;
    cm <- lift (py_getitem (workspace c) (VStr "componentModel")) ;;
    resrc <- lift (str_add ("model" ++ "/") cm) ;;
    v <- _get resrc [] ;;
    set_self (with_model v) ;;;
    c <- get_self ;;
    ret (model c).

Definition create_component (comp : value) : M value :=
  if is_None comp then
    raise ArdoqClientException (VStr "must provide a component")
  else
    res <- _post "component" comp [] ;;
    ret res.

Definition get_component (ws_id comp_id : value) : M value :=
  if is_None ws_id then
    raise ArdoqClientException (VStr "must provide a workspace id")
  else if negb (is_None comp_id) then
    resrc <- lift (str_add "component/" comp_id) ;;
    comp <- _get resrc [] ;;
    ret comp
  else
    resrc <- lift (rbind (str_add "workspace/" ws_id)
                     (fun s => Ok (s ++ "/component"))) ;;
    comp <- _get resrc [] ;;
    ret comp.

Definition update_component (ws_id comp_id comp : value) : M value :=
  if is_None ws_id || is_None comp_id || is_None comp then
    raise ArdoqClientException
      (VStr "must provide a workspace id, component id, and component")
  else
    resrc <- lift (str_add "component/" comp_id) ;;
    res <- _put resrc comp [] ;;
    ret res.

Definition del_component (comp_id : value) : M value :=
  if is_None comp_id then
    raise ArdoqClientException (VStr "must provide a component id")
  else
    resrc <- lift (str_add "component/" comp_id) ;;
    res <- _delete resrc [] ;;
    ret res.

Definition create_reference (ref : value) : M value :=
  if is_None ref then
    raise ArdoqClientException (VStr "must provide a reference")
  else
    res <- _post "reference" ref [] ;;
    ret res.

Definition get_reference (ws_id ref_id : value) : M value :=
  if is_None ws_id then
    raise ArdoqClientException (VStr "must provide a workspace id")
  else
    let ref_id := if is_None ref_id then VStr "" else ref_id in
    resrc <- lift (str_add "reference/" ref_id) ;;
    ref <- _get resrc [("workspace", ws_id)] ;;
    ret ref.

Definition del_reference (ref_id : value) : M value :=
  if is_None ref_id then
    raise ArdoqClientException (VStr "must provide a reference id")
  else
    resrc <- lift (str_add "reference/" ref_id) ;;
    res <- _delete resrc [] ;;
    ret res.

(** ** A caller

    A public method called with its arguments, an argument left out being
    its default [None]. *)
Inductive call : Type :=
| Get_workspaces
| Get_workspace (ws_id : value)
| Create_workspace (ws : value)
| Del_workspace (ws_id : value)
| Get_model (ws_id : value)
| Create_component (comp : value)
| Get_component (ws_id comp_id : value)
| Update_component (ws_id comp_id comp : value)
| Del_component (comp_id : value)
| Create_reference (ref : value)
| Get_reference (ws_id ref_id : value)
| Del_reference (ref_id : value).

Definition perform (c : call) : M value :=
  match c with
  | Get_workspaces => get_workspaces
  | Get_workspace ws_id => get_workspace ws_id
  | Create_workspace ws => create_workspace ws
  | Del_workspace ws_id => del_workspace ws_id
  | Get_model ws_id => get_model ws_id
  | Create_component comp => create_component comp
  | Get_component ws_id comp_id => get_component ws_id comp_id
  | Update_component ws_id comp_id comp => update_component ws_id comp_id comp
  | Del_component comp_id => del_component comp_id
  | Create_reference ref => create_reference ref
  | Get_reference ws_id ref_id => get_reference ws_id ref_id
  | Del_reference ref_id => del_reference ref_id
  end.

(** A caller making one call after the other, going on after an
    exception. *)
Fixpoint run_calls (cs : list call) (w : World) : World :=
  match cs with
  | [] => w
  | c :: cs' => run_calls cs' (snd (perform c w))
  end.

(** A client just constructed: nothing sent yet. *)
Definition fresh (c : ArdoqClient) : World := {| self := c; sent := [] |}.

(** The required inputs of each operation; one of them is [None]. *)
Definition required_absent (c : call) : bool :=
  match c with
  | Get_workspaces => false
  | Get_workspace ws_id => is_None ws_id
  | Create_workspace ws => is_None ws
  | Del_workspace ws_id => is_None ws_id
  | Get_model ws_id => is_None ws_id
  | Create_component comp => is_None comp
  | Get_component ws_id _ => is_None ws_id
  | Update_component ws_id comp_id comp =>
      is_None ws_id || is_None comp_id || is_None comp
  | Del_component comp_id => is_None comp_id
  | Create_reference ref => is_None ref
  | Get_reference ws_id _ => is_None ws_id
  | Del_reference ref_id => is_None ref_id
  end.

(** The operations that create, update or delete on the server. *)
Definition mutating (c : call) : bool :=
  match c with
  | Create_workspace _ | Del_workspace _
  | Create_component _ | Update_component _ _ _ | Del_component _
  | Create_reference _ | Del_reference _ => true
  | _ => false
  end.

(** One of the four private helpers, by verb ([payload] is ignored by
    [_get] and [_delete], which take none). *)
Definition helper (m : method) (resrc : string) (payload : value)
    (kwargs : dict) : M value :=
  match m with
  | GET => _get resrc kwargs
  | POST => _post resrc payload kwargs
  | PUT => _put resrc payload kwargs
  | DELETE => _delete resrc kwargs
  end.

End Client.

(** ** A small server, for running the client on concrete inputs *)

Module Demo.

Definition dq : string := String "034"%char EmptyString.

(** [{"_id": "<id>", "componentModel": "<cm>"}] *)
Definition ws_text (id cm : string) : string :=
  "{" ++ dq ++ "_id" ++ dq ++ ": " ++ dq ++ id ++ dq ++ ", "
      ++ dq ++ "componentModel" ++ dq ++ ": " ++ dq ++ cm ++ dq ++ "}".

Definition ws_doc (id cm : string) : value :=
  VDict [("_id", VStr id); ("componentModel", VStr cm)].

(** [{"_id": "<id>"}] *)
Definition id_text (id : string) : string :=
  "{" ++ dq ++ "_id" ++ dq ++ ": " ++ dq ++ id ++ dq ++ "}".

Definition id_doc (id : string) : value := VDict [("_id", VStr id)].

(** [json.loads] on the bodies this server sends. *)
Definition loads (s : string) : option value :=
  if String.eqb s (ws_text "a" "m1") then Some (ws_doc "a" "m1")
  else if String.eqb s (ws_text "b" "m2") then Some (ws_doc "b" "m2")
  else if String.eqb s (id_text "m1") then Some (id_doc "m1")
  else if String.eqb s (id_text "x") then Some (id_doc "x")
  else if String.eqb s "[]" then Some (VList [])
  else if String.eqb s "{}" then Some (VDict [])
  else if String.eqb s "null" then Some VNone
  else None.

Definition method_eqb (a b : method) : bool :=
  match a, b with
  | GET, GET | POST, POST | PUT, PUT | DELETE, DELETE => true
  | _, _ => false
  end.

Definition ok (body : string) : Response :=
  {| status_code := 200; reason := "OK"; text := body |}.

Definition not_found : Response :=
  {| status_code := 404; reason := "Not Found"; text := "no such resource" |}.

Definition base : string := "https://app.ardoq.com/api/".

(** What the server answers, by verb and URL; anything else is a 404. *)
Definition routes : list (method * string * Response) :=
  [ (GET, base ++ "workspace/a", ok (ws_text "a" "m1"));
    (GET, base ++ "model/m1", ok (id_text "m1"));
    (GET, base ++ "reference/", ok "[]");
    (POST, base ++ "component",
       {| status_code := 201; reason := "Created"; text := id_text "x" |});
    (DELETE, base ++ "component/x",
       {| status_code := 204; reason := "No Content"; text := "gone" |}) ].

Definition serve (history : list Request) (r : Request) : result Response :=
  match find (fun rt => method_eqb (fst (fst rt)) (verb r)
                        && String.eqb (snd (fst rt)) (url r)) routes with
  | Some rt => Ok (snd rt)
  | None => Ok not_found
  end.

Definition requests : Requests :=
  {| json_loads := loads;
     transport := serve;
     default_headers :=
       [("User-Agent", "python-requests"); ("Accept-Encoding", "gzip, deflate");
        ("Accept", "*/*"); ("Connection", "keep-alive")] |}.

(** [ArdoqClient('https://app.ardoq.com', 'secret', 'acme')] *)
Definition client : ArdoqClient :=
  {| baseurl := base; token := VStr "secret"; org := VStr "acme";
     session := {| headers := [("User-Agent", "python-requests");
                               ("Accept-Encoding", "gzip, deflate");
                               ("Accept", "*/*"); ("Connection", "keep-alive");
                               ("Authorization", "Token token=secret")] |};
     workspaces := VNone; workspace := VNone; model := VNone |}.

(** The same client with two workspaces in its list cache and the second
    of them as its current workspace; nothing logged yet. *)
Definition listed : list value := [ws_doc "a" "m1"; ws_doc "b" "m2"].

Definition cached : World :=
  {| self := with_workspace (ws_doc "b" "m2")
               (with_workspaces (VList listed) client);
     sent := [] |}.

End Demo.

(** * Properties *)

Section Properties.

Context {R : Requests}.

(** ** Dictionaries and headers *)

Lemma dict_get_set_eq (k : string) (v : value) (d : dict) :
  dict_get k (dict_set k v d) = Some v.
Proof.
  induction d as [|[k' v'] d IH]; simpl.
  - now rewrite String.eqb_refl.
  - destruct (String.eqb k' k) eqn:E; simpl; rewrite E; auto.
Qed.

Lemma dict_get_set_neq (k k' : string) (v : value) (d : dict) :
  k' <> k -> dict_get k' (dict_set k v d) = dict_get k' d.
Proof.
  intros Hne. induction d as [|[k0 v0] d IH]; simpl.
  - destruct (String.eqb k k') eqn:E; auto.
    apply String.eqb_eq in E. congruence.
  - destruct (String.eqb k0 k) eqn:E; simpl.
    + apply String.eqb_eq in E. subst k0.
      destruct (String.eqb k k') eqn:E'; auto.
      apply String.eqb_eq in E'. congruence.
    + now rewrite IH.
Qed.

Lemma header_get_set_eq (k v : string) (h : headers_t) :
  header_get k (header_set k v h) = Some v.
Proof.
  induction h as [|[k' v'] h IH]; simpl.
  - unfold header_eqb. now rewrite String.eqb_refl.
  - destruct (header_eqb k' k) eqn:E; simpl.
    + unfold header_eqb. now rewrite String.eqb_refl.
    + now rewrite E.
Qed.

Lemma py_eq_str (v : value) (s : string) :
  py_eq v (VStr s) = true <-> v = VStr s.
Proof.
  split.
  - destruct v; simpl; try discriminate.
    intros E. apply String.eqb_eq in E. now subst.
  - intros ->. simpl. apply String.eqb_refl.
Qed.

(** ** Response unwrapping *)

Lemma unwrap_success (resp : Response) :
  status_code resp = 200 \/ status_code resp = 201 ->
  _unwrap_response resp = Response_json resp.
Proof.
  intros [H|H]; unfold _unwrap_response; rewrite H; reflexivity.
Qed.

Lemma unwrap_no_content (resp : Response) :
  status_code resp = 204 -> _unwrap_response resp = Ok (VDict []).
Proof.
  intros H. unfold _unwrap_response. now rewrite H.
Qed.

Lemma unwrap_error (resp : Response) :
  status_code resp <> 200 -> status_code resp <> 201 ->
  status_code resp <> 204 ->
  _unwrap_response resp =
    Raised (Exn ArdoqClientException
              (VDict [("code", VInt (status_code resp));
                      ("reason", VStr (reason resp));
                      ("text", VStr (text resp))])).
Proof.
  intros H0 H1 H4. unfold _unwrap_response.
  apply Z.eqb_neq in H0, H1, H4. now rewrite H0, H1, H4.
Qed.

Lemma unwrap_raises_unspecialized (resp : Response) (e : exn) :
  _unwrap_response resp = Raised e -> specialized (exn_type e) = false.
Proof.
  unfold _unwrap_response, Response_json.
  destruct ((status_code resp =? 200) || (status_code resp =? 201)).
  - destruct (json_loads (text resp)); intros H; inversion H; reflexivity.
  - destruct (status_code resp =? 204); intros H; inversion H; reflexivity.
Qed.

(** C1. For every response, [_unwrap_response] returns the parsed JSON body
    as it is on status 200 or 201 (what [resp.json()] gives), an empty
    mapping on 204 whatever the body, and on any other status raises
    [ArdoqClientException] with the status code, the reason phrase and the
    raw body text; no exception it raises is of one of the four
    specialized classes. *)
Theorem unwrap_response_spec (resp : Response) :
  (status_code resp = 200 \/ status_code resp = 201 ->
     _unwrap_response resp = Response_json resp /\
     forall v, json_loads (text resp) = Some v ->
               _unwrap_response resp = Ok v) /\
  (status_code resp = 204 -> _unwrap_response resp = Ok (VDict [])) /\
  (status_code resp <> 200 -> status_code resp <> 201 ->
   status_code resp <> 204 ->
     _unwrap_response resp =
       Raised (Exn ArdoqClientException
                 (VDict [("code", VInt (status_code resp));
                         ("reason", VStr (reason resp));
                         ("text", VStr (text resp))]))) /\
  (forall e, _unwrap_response resp = Raised e ->
             exn_type e <> AuthorizationError /\ exn_type e <> NotFoundError /\
             exn_type e <> ServiceUnavailable /\ exn_type e <> BadRequest).
Proof.
  repeat split.
  - now apply unwrap_success.
  - intros v Hv. rewrite (unwrap_success resp H).
    unfold Response_json. now rewrite Hv.
  - apply unwrap_no_content.
  - apply unwrap_error.
  - intros C. apply unwrap_raises_unspecialized in H. now rewrite C in H.
  - intros C. apply unwrap_raises_unspecialized in H. now rewrite C in H.
  - intros C. apply unwrap_raises_unspecialized in H. now rewrite C in H.
  - intros C. apply unwrap_raises_unspecialized in H. now rewrite C in H.
Qed.

(** ** What a helper does, in one equation *)

Definition body_of (m : method) (payload : value) : option value :=
  match m with
  | POST | PUT => Some payload
  | GET | DELETE => None
  end.

(** The request a helper hands to the session in world [w]. *)
Definition request_of (m : method) (resrc : string) (payload : value)
    (kwargs : dict) (w : World) : Request :=
  {| verb := m;
     url := baseurl (self w) ++ resrc;
     params := dict_update kwargs [("org", org (self w))];
     json := body_of m payload;
     req_headers := headers (session (self w)) |}.

Definition log (r : Request) (w : World) : World :=
  {| self := self w; sent := sent w ++ [r] |}.

Lemma helper_run (m : method) (resrc : string) (payload : value)
    (kwargs : dict) (w : World) :
  helper m resrc payload kwargs w =
    (rbind (transport (sent w) (request_of m resrc payload kwargs w))
           _unwrap_response,
     log (request_of m resrc payload kwargs w) w).
Proof.
  destruct m; unfold helper, _get, _post, _put, _delete, bind, get_self,
    session_request, lift, request_of, log; simpl;
    match goal with |- context [transport ?h ?r] =>
      destruct (transport h r) end; reflexivity.
Qed.

Lemma _get_run resrc kwargs w :
  _get resrc kwargs w =
    (rbind (transport (sent w) (request_of GET resrc VNone kwargs w))
           _unwrap_response,
     log (request_of GET resrc VNone kwargs w) w).
Proof. exact (helper_run GET resrc VNone kwargs w). Qed.

Lemma _post_run resrc payload kwargs w :
  _post resrc payload kwargs w =
    (rbind (transport (sent w) (request_of POST resrc payload kwargs w))
           _unwrap_response,
     log (request_of POST resrc payload kwargs w) w).
Proof. exact (helper_run POST resrc payload kwargs w). Qed.

Lemma _put_run resrc payload kwargs w :
  _put resrc payload kwargs w =
    (rbind (transport (sent w) (request_of PUT resrc payload kwargs w))
           _unwrap_response,
     log (request_of PUT resrc payload kwargs w) w).
Proof. exact (helper_run PUT resrc payload kwargs w). Qed.

Lemma _delete_run resrc kwargs w :
  _delete resrc kwargs w =
    (rbind (transport (sent w) (request_of DELETE resrc VNone kwargs w))
           _unwrap_response,
     log (request_of DELETE resrc VNone kwargs w) w).
Proof. exact (helper_run DELETE resrc VNone kwargs w). Qed.

(** ** Frame reasoning: a relation between the worlds before and after *)

Section Frame.

Variable Rl : World -> World -> Prop.
Hypothesis Rl_refl : forall w, Rl w w.
Hypothesis Rl_trans : forall a b c, Rl a b -> Rl b c -> Rl a c.

Definition keeps {A} (m : M A) : Prop := forall w, Rl w (snd (m w)).

Lemma keeps_ret {A} (a : A) : keeps (ret a).
Proof. intros w. apply Rl_refl. Qed.

Lemma keeps_raise {A} c arg : keeps (@raise A c arg).
Proof. intros w. apply Rl_refl. Qed.

Lemma keeps_lift {A} (r : result A) : keeps (lift r).
Proof. intros w. apply Rl_refl. Qed.

Lemma keeps_get_self : keeps get_self.
Proof. intros w. apply Rl_refl. Qed.

Lemma keeps_bind {A B} (m : M A) (k : A -> M B) :
  keeps m -> (forall a, keeps (k a)) -> keeps (bind m k).
Proof.
  intros Hm Hk w. unfold bind. specialize (Hm w).
  destruct (m w) as [[a|e] w1]; simpl in *; auto.
  eapply Rl_trans; [exact Hm | apply Hk].
Qed.

Hypothesis Rl_get : forall resrc kwargs, keeps (_get resrc kwargs).
Hypothesis Rl_post :
  forall resrc payload kwargs, keeps (_post resrc payload kwargs).
Hypothesis Rl_put :
  forall resrc payload kwargs, keeps (_put resrc payload kwargs).
Hypothesis Rl_delete : forall resrc kwargs, keeps (_delete resrc kwargs).

Ltac keeps_step :=
  first
    [ apply keeps_ret | apply keeps_raise | apply keeps_lift
    | apply keeps_get_self
    | apply Rl_get | apply Rl_post | apply Rl_put | apply Rl_delete
    | apply keeps_bind; [ | intro ]
    | match goal with
      | |- keeps (if ?b then _ else _) => destruct b
      end ].

(** The operations that write to the server lead from a world to a related
    one, as soon as the helpers do. *)
Lemma keeps_mutating (c : call) : mutating c = true -> keeps (perform c).
Proof.
  destruct c; simpl; try discriminate; intros _;
    unfold create_workspace, del_workspace, create_component,
      update_component, del_component, create_reference, del_reference;
    repeat keeps_step.
Qed.

Hypothesis Rl_set_workspaces : forall v, keeps (set_self (with_workspaces v)).
Hypothesis Rl_set_workspace : forall v, keeps (set_self (with_workspace v)).
Hypothesis Rl_set_model : forall v, keeps (set_self (with_model v)).

Ltac keeps_step' :=
  first
    [ apply Rl_set_workspaces | apply Rl_set_workspace | apply Rl_set_model
    | keeps_step ].

Lemma keeps_scan ws_id items :
  forall i ws_index, keeps (scan_workspaces ws_id items i ws_index).
Proof.
  induction items as [|v rest IH]; intros i ws_index; simpl.
  - apply keeps_ret.
  - repeat keeps_step'; apply IH.
Qed.

Lemma keeps_perform (c : call) : keeps (perform c).
Proof.
  destruct (mutating c) eqn:Hm; [ now apply keeps_mutating | ].
  destruct c; try discriminate; simpl;
    unfold get_workspaces, get_workspace, get_model, get_component,
      get_reference; cbv zeta;
    repeat first [ apply keeps_scan | keeps_step' ].
Qed.

Lemma keeps_run_calls (cs : list call) : forall w, Rl w (run_calls cs w).
Proof.
  induction cs as [|c cs IH]; intros w; simpl.
  - apply Rl_refl.
  - eapply Rl_trans; [ apply keeps_perform | apply IH ].
Qed.

End Frame.

(** A fact about [helper] read at one of the four helpers. *)
Ltac by_helper H :=
  intros;
  first [ exact (H GET _ VNone _) | exact (H POST _ _ _)
        | exact (H PUT _ _ _) | exact (H DELETE _ VNone _) ].

(** ** Validation of required arguments *)

(** C2. A public operation called with a required argument absent
    ([None]) raises the client's exception with a message at once: the
    client is as before and no request has been issued. *)
Theorem absent_argument_raises (c : call) (w : World) :
  required_absent c = true ->
  exists msg : string,
    perform c w = (Raised (Exn ArdoqClientException (VStr msg)), w).
Proof.
  destruct c; simpl; intros H; try discriminate;
    unfold get_workspace, create_workspace, del_workspace, get_model,
      create_component, get_component, update_component, del_component,
      create_reference, get_reference, del_reference;
    rewrite H; unfold raise; eexists; reflexivity.
Qed.

(** ** The caches under the mutating operations *)

Definition same_client (w w' : World) : Prop := self w' = self w.

Lemma helper_same_client m resrc payload kwargs :
  keeps same_client (helper m resrc payload kwargs).
Proof. intros w. now rewrite helper_run. Qed.

(** C9. The mutating operations ([create_workspace], [del_workspace],
    [create_component], [update_component], [del_component],
    [create_reference], [del_reference]) leave the cache fields
    [workspaces], [workspace] and [model] as they were, whether the call
    returns or raises. *)
Theorem mutating_keeps_caches (c : call) (w : World) :
  mutating c = true ->
  workspaces (self (snd (perform c w))) = workspaces (self w) /\
  workspace (self (snd (perform c w))) = workspace (self w) /\
  model (self (snd (perform c w))) = model (self w).
Proof.
  intros Hc.
  assert (E : same_client w (snd (perform c w))).
  { apply (keeps_mutating same_client); auto; try by_helper helper_same_client.
    - intros x. reflexivity.
    - intros x y z Hxy Hyz. unfold same_client in *. congruence. }
  unfold same_client in E. now rewrite E.
Qed.

(** ** What every request carries *)

(** The configuration of the client in [w]: organization and session. *)
Definition stamped (w : World) (r : Request) : Prop :=
  dict_get "org" (params r) = Some (org (self w)) /\
  req_headers r = headers (session (self w)).

(** [w'] comes after [w]: same organization and session, and the requests
    issued in between carry them. *)
Definition extends (w w' : World) : Prop :=
  org (self w') = org (self w) /\
  session (self w') = session (self w) /\
  exists new, sent w' = (sent w ++ new)%list /\ Forall (stamped w) new.

Lemma extends_refl w : extends w w.
Proof.
  split; [ reflexivity | split; [ reflexivity | ] ].
  exists []. split; [ now rewrite app_nil_r | constructor ].
Qed.

Lemma extends_trans a b c : extends a b -> extends b c -> extends a c.
Proof.
  intros (Ho & Hs & n1 & E1 & F1) (Ho' & Hs' & n2 & E2 & F2).
  split; [ congruence | split; [ congruence | ] ].
  exists (n1 ++ n2)%list. split.
  - now rewrite E2, E1, app_assoc.
  - apply Forall_app. split; auto.
    eapply Forall_impl; [ | exact F2 ].
    intros r [P Q]. split; congruence.
Qed.

Lemma helper_extends m resrc payload kwargs :
  keeps extends (helper m resrc payload kwargs).
Proof.
  intros w. rewrite helper_run. simpl.
  split; [ reflexivity | split; [ reflexivity | ] ].
  exists [request_of m resrc payload kwargs w]. split; auto.
  constructor; [ | constructor ]. split; simpl; auto.
  apply dict_get_set_eq.
Qed.

Lemma set_self_extends (f : ArdoqClient -> ArdoqClient) :
  (forall c, org (f c) = org c) -> (forall c, session (f c) = session c) ->
  keeps extends (set_self f).
Proof.
  intros Ho Hs w. simpl.
  split; [ apply Ho | split; [ apply Hs | ] ].
  exists []. split; [ now rewrite app_nil_r | constructor ].
Qed.

Lemma run_calls_extends (cs : list call) (w : World) :
  extends w (run_calls cs w).
Proof.
  apply (keeps_run_calls extends); try by_helper helper_extends.
  - exact extends_refl.
  - exact extends_trans.
  - intros v. now apply set_self_extends.
  - intros v. now apply set_self_extends.
  - intros v. now apply set_self_extends.
Qed.

Lemma fresh_run_stamped (c : ArdoqClient) (cs : list call) (r : Request) :
  In r (sent (run_calls cs (fresh c))) -> stamped (fresh c) r.
Proof.
  destruct (run_calls_extends cs (fresh c)) as (_ & _ & new & E & F).
  rewrite E. simpl. intros Hin.
  rewrite Forall_forall in F. now apply F.
Qed.

Lemma init_inv (hosturl tok o : value) (c : ArdoqClient) :
  __init__ hosturl tok o = Ok c ->
  exists h t, hosturl = VStr h /\ tok = VStr t /\
    c = {| baseurl := h ++ "/api/"; token := tok; org := o;
           session := {| headers :=
             header_set "Authorization" ("Token token=" ++ t)
               default_headers |};
           workspaces := VNone; workspace := VNone; model := VNone |}.
Proof.
  unfold __init__.
  destruct hosturl; simpl; try discriminate.
  destruct tok; simpl; try discriminate.
  intros H. inversion H. eauto.
Qed.

(** C5. Each of the four helpers issues one request whose query parameters
    are the caller's, with [org] set to the client's organization; and
    every request of a client constructed with organization [o], whatever
    the calls made on it, has [org] equal to [o]. *)
Theorem org_on_every_request :
  (forall (m : method) (resrc : string) (payload : value) (kwargs : dict)
          (w : World),
      exists r,
        sent (snd (helper m resrc payload kwargs w)) = (sent w ++ [r])%list /\
        verb r = m /\
        dict_get "org" (params r) = Some (org (self w)) /\
        forall k, k <> "org" -> dict_get k (params r) = dict_get k kwargs) /\
  (forall (hosturl tok o : value) (c : ArdoqClient),
      __init__ hosturl tok o = Ok c ->
      forall (cs : list call) (r : Request),
        In r (sent (run_calls cs (fresh c))) ->
        dict_get "org" (params r) = Some o).
Proof.
  split.
  - intros m resrc payload kwargs w.
    exists (request_of m resrc payload kwargs w).
    rewrite helper_run. simpl. repeat split.
    + apply dict_get_set_eq.
    + intros k Hk. now apply dict_get_set_neq.
  - intros hosturl tok o c Hc cs r Hin.
    apply fresh_run_stamped in Hin. destruct Hin as [Horg _].
    rewrite Horg. simpl.
    destruct (init_inv _ _ _ _ Hc) as (h & t & _ & _ & ->). reflexivity.
Qed.

(** C6. Every request of a client constructed with token [t] carries the
    header [Authorization: Token token=t]. *)
Theorem authorization_on_every_request
    (hosturl tok o : value) (c : ArdoqClient) :
  __init__ hosturl tok o = Ok c ->
  exists t : string,
    tok = VStr t /\
    forall (cs : list call) (r : Request),
      In r (sent (run_calls cs (fresh c))) ->
      header_get "Authorization" (req_headers r)
        = Some ("Token token=" ++ t).
Proof.
  intros Hc. destruct (init_inv _ _ _ _ Hc) as (h & t & _ & Ht & Ec).
  exists t. split; auto.
  intros cs r Hin. apply fresh_run_stamped in Hin. destruct Hin as [_ Hh].
  rewrite Hh, Ec. simpl. apply header_get_set_eq.
Qed.

(** ** Construction *)

Lemma init_str (h t : string) (o : value) :
  exists c, __init__ (VStr h) (VStr t) o = Ok c /\
            baseurl c = (h ++ "/api/")%string /\ token c = VStr t /\
            org c = o /\
            workspaces c = VNone /\ workspace c = VNone /\ model c = VNone.
Proof. eexists. split; [ reflexivity | simpl; auto 10 ]. Qed.

(** C7 (as the code has it). The constructor called with its defaults,
    [ArdoqClient()], does not return: the default token [None] cannot be
    appended to ['Token token='], and [TypeError] is raised; so it is with
    the default token whatever the host URL and the organization. *)
Theorem init_default_token_raises :
  __init__ default_hosturl default_token default_org
    = Raised (Exn TypeError VNone) /\
  forall hosturl o : value,
    __init__ hosturl default_token o = Raised (Exn TypeError VNone).
Proof.
  split; [ reflexivity | ].
  intros hosturl o. unfold __init__.
  destruct (add_str hosturl "/api/") as [b|e] eqn:E; simpl.
  - reflexivity.
  - destruct hosturl; simpl in E; inversion E; reflexivity.
Qed.

Lemma init_token_not_str (h : string) (tok o : value) :
  (forall t, tok <> VStr t) ->
  __init__ (VStr h) tok o = Raised (Exn TypeError VNone).
Proof.
  intros H. destruct tok; try reflexivity. now destruct (H s).
Qed.

(** ** References *)

Definition opt_str (o : option string) : value :=
  match o with Some s => VStr s | None => VNone end.

Lemma not_None (v : value) : v <> VNone -> is_None v = false.
Proof. destruct v; auto. congruence. Qed.

(** C8. With a workspace id that is not [None], [get_reference] issues one
    GET of ['reference/'] followed by the reference id (the empty string
    when it is left out), with query parameters [workspace] (the workspace
    id) and [org], and its outcome is the unwrapped response. *)
Theorem get_reference_spec (ws_id : value) (ref_id : option string)
    (w : World) :
  ws_id <> VNone ->
  let r :=
    {| verb := GET;
       url := baseurl (self w) ++ "reference/"
                ++ match ref_id with Some s => s | None => "" end;
       params := [("workspace", ws_id); ("org", org (self w))];
       json := None;
       req_headers := headers (session (self w)) |} in
  get_reference ws_id (opt_str ref_id) w =
    (rbind (transport (sent w) r) _unwrap_response,
     {| self := self w; sent := sent w ++ [r] |}).
Proof.
  intros Hws r.
  unfold get_reference. rewrite (not_None _ Hws).
  assert (E : str_add "reference/"
                (if is_None (opt_str ref_id) then VStr "" else opt_str ref_id)
              = Ok ("reference/"
                    ++ match ref_id with Some s => s | None => "" end)%string)
    by (destruct ref_id; reflexivity).
  cbv zeta. unfold bind at 1. unfold lift at 1. rewrite E.
  unfold bind at 1. rewrite _get_run.
  change (request_of GET
            ("reference/" ++ match ref_id with Some s => s | None => "" end)
            VNone [("workspace", ws_id)] w) with r.
  destruct (rbind (transport (sent w) r) _unwrap_response); reflexivity.
Qed.

(** ** Models *)

(** [get_model] with a [str] id, step by step. *)
Lemma get_model_str (s : string) (w : World) :
  get_model (VStr s) w =
    match _get ("workspace/" ++ s) [] w with
    | (Ok ws, w1) =>
        let w2 := {| self := with_workspace ws (self w1); sent := sent w1 |} in
        match rbind (py_getitem ws (VStr "componentModel"))
                    (str_add "model/") with
        | Ok resrc =>
            match _get resrc [] w2 with
            | (Ok m, w3) =>
                (Ok m, {| self := with_model m (self w3); sent := sent w3 |})
            | (Raised e, w3) => (Raised e, w3)
            end
        | Raised e => (Raised e, w2)
        end
    | (Raised e, w1) => (Raised e, w1)
    end.
Proof.
  unfold get_model, bind, lift, set_self, get_self, ret. cbn [is_None str_add].
  change ("workspace" ++ "/")%string with "workspace/".
  change ("model" ++ "/")%string with "model/".
  destruct (_get ("workspace/" ++ s) [] w) as [[ws|e] w1]; [ | reflexivity ].
  cbn [self workspace with_workspace sent].
  destruct (py_getitem ws (VStr "componentModel")) as [cm|e];
    [ | reflexivity ].
  cbn [rbind].
  destruct (str_add "model/" cm) as [resrc|e]; [ | reflexivity ].
  match goal with |- context [_get ?a ?b ?c] =>
    destruct (_get a b c) as [[m|e] w3] end; reflexivity.
Qed.

(** C4, as first stated, in its weakest reading: the call issues exactly
    two requests. *)
Definition issues_two_requests (ws_id : value) (w : World) : Prop :=
  exists r1 r2 : Request,
    sent (snd (get_model ws_id w)) = (sent w ++ [r1; r2])%list.

(** C4. [get_model] with a [str] workspace id first issues a GET of
    ['workspace/'] and the id.  When that fetch fails, its exception is the
    outcome and no other request is issued.  When it gives a workspace
    whose [componentModel] is a [str], a GET of ['model/'] and that
    identifier follows, exactly two requests in this order, and the outcome
    is the unwrapped second response: the model, stored in the cache. *)
Theorem get_model_requests (s : string) (w : World) :
  let r1 :=
    {| verb := GET;
       url := baseurl (self w) ++ "workspace/" ++ s;
       params := [("org", org (self w))];
       json := None;
       req_headers := headers (session (self w)) |} in
  (forall e,
      rbind (transport (sent w) r1) _unwrap_response = Raised e ->
      get_model (VStr s) w =
        (Raised e, {| self := self w; sent := sent w ++ [r1] |})) /\
  (forall ws cm,
      rbind (transport (sent w) r1) _unwrap_response = Ok ws ->
      py_getitem ws (VStr "componentModel") = Ok (VStr cm) ->
      let r2 :=
        {| verb := GET;
           url := baseurl (self w) ++ "model/" ++ cm;
           params := [("org", org (self w))];
           json := None;
           req_headers := headers (session (self w)) |} in
      get_model (VStr s) w =
        match rbind (transport (sent w ++ [r1]) r2) _unwrap_response with
        | Ok m =>
            (Ok m, {| self := with_model m (with_workspace ws (self w));
                      sent := sent w ++ [r1; r2] |})
        | Raised e =>
            (Raised e, {| self := with_workspace ws (self w);
                          sent := sent w ++ [r1; r2] |})
        end).
Proof.
  intros r1.
  assert (E1 : request_of GET ("workspace/" ++ s) VNone [] w = r1)
    by reflexivity.
  split.
  - intros e He. rewrite get_model_str, _get_run, E1, He. reflexivity.
  - intros ws cm Hws Hcm r2.
    rewrite get_model_str, _get_run, E1, Hws, Hcm.
    cbn [rbind str_add log self sent]. rewrite _get_run.
    change (request_of GET ("model/" ++ cm) VNone []
              {| self := with_workspace ws (self w);
                 sent := sent w ++ [r1] |}) with r2.
    unfold log. cbn [sent self].
    replace ((sent w ++ [r1]) ++ [r2])%list with (sent w ++ [r1; r2])%list
      by (now rewrite <- app_assoc).
    destruct (rbind (transport (sent w ++ [r1]) r2) _unwrap_response);
      reflexivity.
Qed.

Lemma get_model_not_str (ws_id : value) (w : World) :
  ws_id <> VNone -> (forall s, ws_id <> VStr s) ->
  get_model ws_id w = (Raised (Exn TypeError VNone), w).
Proof.
  intros Hn Hs. destruct ws_id; try reflexivity.
  - now destruct Hn.
  - now destruct (Hs s).
Qed.

(** C10. When [get_model] returns, the workspace cache holds the workspace
    just fetched for the given id, whatever it held before, and the model
    cache holds the model returned. *)
Theorem get_model_overwrites_workspace (ws_id m : value) (w w' : World) :
  get_model ws_id w = (Ok m, w') ->
  exists (s : string) (ws : value) (w1 : World),
    ws_id = VStr s /\
    _get ("workspace/" ++ s) [] w = (Ok ws, w1) /\
    workspace (self w') = ws /\
    model (self w') = m.
Proof.
  destruct ws_id as [ | | | |s| | ]; try discriminate.
  rewrite get_model_str.
  destruct (_get ("workspace/" ++ s) [] w) as [[ws|e] w1] eqn:E1;
    [ | discriminate ].
  cbv zeta.
  destruct (rbind (py_getitem ws (VStr "componentModel")) (str_add "model/"))
    as [resrc|e]; [ | discriminate ].
  match goal with |- context [_get ?a ?b ?c] =>
    destruct (_get a b c) as [[md|e] w3] eqn:E2 end; [ | discriminate ].
  intros H. inversion H; subst. exists s, ws, w1.
  rewrite _get_run in E2. inversion E2. cbn. auto.
Qed.

(** ** The workspace cache *)

(** A workspace document: a mapping with an [_id]. *)
Definition has_id (v : value) : bool :=
  match v with
  | VDict d => negb (is_none (dict_get "_id" d))
  | _ => false
  end.

Definition id_of (v : value) : value :=
  match v with
  | VDict d => match dict_get "_id" d with Some i => i | None => VNone end
  | _ => VNone
  end.

(** The last entry of [l] whose [_id] equals [ws_id], with its position
    counted from [i]. *)
Fixpoint last_match (ws_id : value) (l : list value) (i : nat)
    : option (nat * value) :=
  match l with
  | [] => None
  | v :: rest =>
      match last_match ws_id rest (S i) with
      | Some r => Some r
      | None => if py_eq (id_of v) ws_id then Some (i, v) else None
      end
  end.

Lemma has_id_getitem (v : value) :
  has_id v = true -> py_getitem v (VStr "_id") = Ok (id_of v).
Proof.
  destruct v; simpl; try discriminate.
  destruct (dict_get "_id" d); simpl; [ reflexivity | discriminate ].
Qed.

Lemma seq_index_nat {A} (l : list A) (i : nat) (x : A) :
  nth_error l i = Some x -> seq_index l (Z.of_nat i) = Some x.
Proof.
  intros H. unfold seq_index.
  assert (Hlt : (i < List.length l)%nat).
  { apply nth_error_Some. congruence. }
  replace ((0 <=? Z.of_nat i) && (Z.of_nat i <? Z.of_nat (List.length l)))
    with true.
  - now rewrite Nat2Z.id.
  - symmetry. apply andb_true_iff. split.
    + apply Z.leb_le. lia.
    + apply Z.ltb_lt. lia.
Qed.

Definition cache (e : value) (w : World) : World :=
  {| self := with_workspace e (self w); sent := sent w |}.

(** The loop over a list of workspace documents: it ends with the last
    match as [self.workspace], and its position as [ws_index]. *)
Lemma scan_run (ws_id : value) (l0 : list value) :
  forall (l : list value) (i : nat) (ws_index : option nat) (w : World),
    workspaces (self w) = VList l0 ->
    forallb has_id l = true ->
    (forall j, nth_error l j = nth_error l0 (i + j)) ->
    scan_workspaces ws_id l i ws_index w =
      match last_match ws_id l i with
      | Some (j, e) => (Ok (Some j), cache e w)
      | None => (Ok ws_index, w)
      end.
Proof.
  induction l as [|v rest IH]; intros i ws_index w Hw Hwf Hnth.
  - reflexivity.
  - simpl in Hwf. apply andb_true_iff in Hwf. destruct Hwf as [Hv Hrest].
    assert (Hnth' : forall j, nth_error rest j = nth_error l0 (S i + j)).
    { intros j. specialize (Hnth (S j)). simpl in Hnth.
      now rewrite Nat.add_succ_r in Hnth. }
    cbn [scan_workspaces last_match]. unfold bind at 1, lift at 1.
    rewrite (has_id_getitem v Hv).
    destruct (py_eq (id_of v) ws_id) eqn:Heq.
    + unfold bind, lift, get_self, set_self. rewrite Hw.
      cbn [py_getitem seq_getitem as_index].
      specialize (Hnth 0%nat). simpl in Hnth. rewrite Nat.add_0_r in Hnth.
      rewrite (seq_index_nat l0 i v (eq_sym Hnth)).
      fold (cache v w).
      rewrite (IH (S i) (Some i) (cache v w) Hw Hrest Hnth').
      destruct (last_match ws_id rest (S i)) as [[j e]|]; reflexivity.
    + rewrite (IH (S i) ws_index w Hw Hrest Hnth').
      destruct (last_match ws_id rest (S i)) as [[j e]|]; reflexivity.
Qed.

Lemma last_match_In ws_id l : forall i j e,
  last_match ws_id l i = Some (j, e) ->
  In e l /\ py_eq (id_of e) ws_id = true.
Proof.
  induction l as [|v rest IH]; intros i j e; simpl; [ discriminate | ].
  destruct (last_match ws_id rest (S i)) as [[j' e']|] eqn:E.
  - intros H. inversion H; subst. destruct (IH _ _ _ E). auto.
  - destruct (py_eq (id_of v) ws_id) eqn:Heq; [ | discriminate ].
    intros H. inversion H; subst. auto.
Qed.

Lemma last_match_None ws_id l : forall i,
  last_match ws_id l i = None ->
  forall e, In e l -> py_eq (id_of e) ws_id = false.
Proof.
  induction l as [|v rest IH]; intros i; simpl; [ contradiction | ].
  destruct (last_match ws_id rest (S i)) as [[j' e']|] eqn:E;
    [ discriminate | ].
  destruct (py_eq (id_of v) ws_id) eqn:Heq; [ discriminate | ].
  intros _ e [<-|Hin]; [ assumption | eapply IH; eauto ].
Qed.

(** [get_workspace] on a list of workspace documents. *)
Lemma get_workspace_list (ws_id : value) (l : list value) (w : World) :
  ws_id <> VNone ->
  workspaces (self w) = VList l ->
  forallb has_id l = true ->
  get_workspace ws_id w =
    match last_match ws_id l 0 with
    | Some (_, e) => (Ok e, cache e w)
    | None =>
        bind (lift (str_add "workspace/" ws_id))
          (fun resrc => bind (_get resrc [])
             (fun v => bind (set_self (with_workspace v))
                (fun _ => bind get_self (fun c => ret (workspace c))))) w
    end.
Proof.
  intros Hid Hw Hwf. unfold get_workspace. rewrite (not_None _ Hid).
  unfold bind at 1. unfold get_self at 1. cbn [self]. rewrite Hw.
  cbn [is_None negb]. unfold bind at 1. unfold bind at 1.
  unfold lift at 1. cbn [py_iter].
  rewrite (scan_run ws_id l l 0 None w Hw Hwf (fun j => eq_refl)).
  destruct (last_match ws_id l 0) as [[j e]|].
  - unfold bind, get_self, ret. cbn. rewrite Hw. reflexivity.
  - unfold bind at 1. unfold get_self at 1. cbn [is_none orb].
    unfold bind at 1. unfold bind at 1.
    change ("workspace" ++ "/")%string with "workspace/".
    unfold bind, lift, get_self, ret, set_self.
    destruct (str_add "workspace/" ws_id) as [resrc|e]; [ | reflexivity ].
    destruct (_get resrc [] w) as [[v|e] w1]; reflexivity.
Qed.

(** [get_workspace] when no list has been fetched. *)
Lemma get_workspace_no_list (ws_id : value) (w : World) :
  ws_id <> VNone ->
  workspaces (self w) = VNone ->
  get_workspace ws_id w =
    bind (lift (str_add "workspace/" ws_id))
      (fun resrc => bind (_get resrc [])
         (fun v => bind (set_self (with_workspace v))
            (fun _ => bind get_self (fun c => ret (workspace c))))) w.
Proof.
  intros Hid Hw. unfold get_workspace. rewrite (not_None _ Hid).
  unfold bind at 1. unfold get_self at 1. cbn [self]. rewrite Hw.
  cbn [is_None negb]. unfold bind at 1. unfold ret at 1.
  unfold bind at 1. unfold get_self at 1. cbn [self]. rewrite Hw.
  cbn [is_none is_None orb].
  change ("workspace" ++ "/")%string with "workspace/".
  unfold bind, lift, get_self, ret, set_self.
  destruct (str_add "workspace/" ws_id) as [resrc|e]; [ | reflexivity ].
  destruct (_get resrc [] w) as [[v|e] w1]; reflexivity.
Qed.

(** The direct fetch of [get_workspace]. *)
Lemma fetch_workspace_run (s : string) (w : World) :
  bind (lift (str_add "workspace/" (VStr s)))
    (fun resrc => bind (_get resrc [])
       (fun v => bind (set_self (with_workspace v))
          (fun _ => bind get_self (fun c => ret (workspace c))))) w =
  let r := request_of GET ("workspace/" ++ s) VNone [] w in
  match rbind (transport (sent w) r) _unwrap_response with
  | Ok v => (Ok v, {| self := with_workspace v (self w);
                      sent := sent w ++ [r] |})
  | Raised e => (Raised e, {| self := self w; sent := sent w ++ [r] |})
  end.
Proof.
  unfold bind at 1. unfold lift at 1. cbn [str_add].
  unfold bind at 1. rewrite _get_run. cbv zeta.
  destruct (rbind (transport (sent w)
                     (request_of GET ("workspace/" ++ s) VNone [] w))
                  _unwrap_response); reflexivity.
Qed.

(** C3. [get_workspace] on a cache of workspace documents.  When an entry
    of the fetched list has the given [_id] (and it is the only such
    entry), that entry is returned and becomes [self.workspace], and no
    request is issued.  When no list has been fetched, or no entry has that
    [_id], one GET of ['workspace/'] and the id is issued; its unwrapped
    result is returned and stored in [self.workspace] (an exception it
    raises is passed on and the cache stays). *)
Theorem get_workspace_cache :
  (forall (ws_id : value) (l : list value) (e : value) (w : World),
      ws_id <> VNone ->
      workspaces (self w) = VList l ->
      forallb has_id l = true ->
      In e l ->
      py_eq (id_of e) ws_id = true ->
      (forall e', In e' l -> py_eq (id_of e') ws_id = true -> e' = e) ->
      get_workspace ws_id w =
        (Ok e, {| self := with_workspace e (self w); sent := sent w |})) /\
  (forall (s : string) (w : World),
      workspaces (self w) = VNone \/
      (exists l, workspaces (self w) = VList l /\
                 forallb has_id l = true /\
                 forall e, In e l -> py_eq (id_of e) (VStr s) = false) ->
      let r :=
        {| verb := GET;
           url := baseurl (self w) ++ "workspace/" ++ s;
           params := [("org", org (self w))];
           json := None;
           req_headers := headers (session (self w)) |} in
      get_workspace (VStr s) w =
        match rbind (transport (sent w) r) _unwrap_response with
        | Ok v => (Ok v, {| self := with_workspace v (self w);
                            sent := sent w ++ [r] |})
        | Raised x => (Raised x, {| self := self w;
                                    sent := sent w ++ [r] |})
        end).
Proof.
  split.
  - intros ws_id l e w Hid Hw Hwf Hin Heq Huniq.
    rewrite (get_workspace_list ws_id l w Hid Hw Hwf).
    destruct (last_match ws_id l 0) as [[j e']|] eqn:E.
    + destruct (last_match_In _ _ _ _ _ E) as [Hin' Heq'].
      rewrite (Huniq e' Hin' Heq'). reflexivity.
    + rewrite (last_match_None _ _ _ E e Hin) in Heq. discriminate.
  - intros s w Hmiss r.
    assert (Hid : VStr s <> VNone) by discriminate.
    destruct Hmiss as [Hw | (l & Hw & Hwf & Hno)].
    + rewrite (get_workspace_no_list _ w Hid Hw). apply fetch_workspace_run.
    + rewrite (get_workspace_list _ l w Hid Hw Hwf).
      destruct (last_match (VStr s) l 0) as [[j e']|] eqn:E.
      * destruct (last_match_In _ _ _ _ _ E) as [Hin' Heq'].
        rewrite (Hno e' Hin') in Heq'. discriminate.
      * apply fetch_workspace_run.
Qed.

End Properties.

(** * The client on the small server *)

Example init_demo :
  __init__ (R := Demo.requests)
    (VStr "https://app.ardoq.com") (VStr "secret") (VStr "acme")
  = Ok Demo.client.
Proof. reflexivity. Qed.

Example create_component_demo :
  create_component (R := Demo.requests) (VDict [("name", VStr "n")])
    (fresh Demo.client)
  = (Ok (Demo.id_doc "x"),
     {| self := Demo.client;
        sent := [ {| verb := POST;
                     url := "https://app.ardoq.com/api/component";
                     params := [("org", VStr "acme")];
                     json := Some (VDict [("name", VStr "n")]);
                     req_headers := headers (session Demo.client) |} ] |}).
Proof. reflexivity. Qed.

Example del_component_demo :
  fst (del_component (R := Demo.requests) (VStr "x") (fresh Demo.client))
  = Ok (VDict []).
Proof. reflexivity. Qed.

Example get_workspaces_demo :
  fst (get_workspaces (R := Demo.requests) (fresh Demo.client))
  = Raised (Exn ArdoqClientException
              (VDict [("code", VInt 404); ("reason", VStr "Not Found");
                      ("text", VStr "no such resource")])).
Proof. reflexivity. Qed.

Lemma unwrap_response_spec_witness :
  _unwrap_response (R := Demo.requests) (Demo.ok (Demo.id_text "x"))
    = Ok (Demo.id_doc "x") /\
  _unwrap_response (R := Demo.requests)
    {| status_code := 204; reason := "No Content"; text := "gone" |}
    = Ok (VDict []) /\
  _unwrap_response (R := Demo.requests) Demo.not_found
    = Raised (Exn ArdoqClientException
                (VDict [("code", VInt 404); ("reason", VStr "Not Found");
                        ("text", VStr "no such resource")])).
Proof.
  split; [ | split ].
  - apply (unwrap_response_spec (R := Demo.requests)
             (Demo.ok (Demo.id_text "x"))).
    + left. reflexivity.
    + reflexivity.
  - apply (unwrap_response_spec (R := Demo.requests)
             {| status_code := 204; reason := "No Content"; text := "gone" |}).
    reflexivity.
  - apply (unwrap_response_spec (R := Demo.requests) Demo.not_found);
      simpl; lia.
Defined.

Lemma absent_argument_raises_witness :
  required_absent (Update_component (VStr "a") VNone (VDict [])) = true /\
  exists msg : string,
    perform (R := Demo.requests)
      (Update_component (VStr "a") VNone (VDict [])) Demo.cached
    = (Raised (Exn ArdoqClientException (VStr msg)), Demo.cached).
Proof.
  split; [ reflexivity | ].
  apply (absent_argument_raises (R := Demo.requests)). reflexivity.
Defined.

Lemma mutating_keeps_caches_witness :
  mutating (Del_workspace (VStr "b")) = true /\
  workspaces
    (self (snd (perform (R := Demo.requests) (Del_workspace (VStr "b"))
                  Demo.cached)))
    = VList Demo.listed /\
  workspace
    (self (snd (perform (R := Demo.requests) (Del_workspace (VStr "b"))
                  Demo.cached)))
    = Demo.ws_doc "b" "m2" /\
  model
    (self (snd (perform (R := Demo.requests) (Del_workspace (VStr "b"))
                  Demo.cached)))
    = VNone.
Proof.
  split; [ reflexivity | ].
  apply (mutating_keeps_caches (R := Demo.requests)
           (Del_workspace (VStr "b")) Demo.cached).
  reflexivity.
Defined.

Lemma get_workspace_cache_witness :
  get_workspace (R := Demo.requests) (VStr "b") Demo.cached
    = (Ok (Demo.ws_doc "b" "m2"), Demo.cached) /\
  get_workspace (R := Demo.requests) (VStr "a") (fresh Demo.client)
    = (Ok (Demo.ws_doc "a" "m1"),
       {| self := with_workspace (Demo.ws_doc "a" "m1") Demo.client;
          sent := [ {| verb := GET;
                       url := "https://app.ardoq.com/api/workspace/a";
                       params := [("org", VStr "acme")];
                       json := None;
                       req_headers := headers (session Demo.client) |} ] |}).
Proof.
  split.
  - apply (proj1 (get_workspace_cache (R := Demo.requests))
             (VStr "b") Demo.listed (Demo.ws_doc "b" "m2") Demo.cached).
    + discriminate.
    + reflexivity.
    + reflexivity.
    + simpl. auto.
    + reflexivity.
    + intros e' [<-|[<-|[]]] H; [ discriminate H | reflexivity ].
  - apply (proj2 (get_workspace_cache (R := Demo.requests))
             "a" (fresh Demo.client)).
    left. reflexivity.
Defined.

(** C4 fails as first stated: the server knows no workspace [zzz], the
    first response is a 404, and [get_model('zzz')] raises after that one
    request. *)
Lemma get_model_one_request_on_404 :
  VStr "zzz" <> VNone /\
  ~ issues_two_requests (R := Demo.requests) (VStr "zzz") (fresh Demo.client).
Proof.
  split; [ discriminate | ].
  intros (r1 & r2 & H). vm_compute in H. discriminate H.
Qed.

Example get_model_404_demo :
  get_model (R := Demo.requests) (VStr "zzz") (fresh Demo.client)
  = (Raised (Exn ArdoqClientException
               (VDict [("code", VInt 404); ("reason", VStr "Not Found");
                       ("text", VStr "no such resource")])),
     {| self := Demo.client;
        sent := [ {| verb := GET;
                     url := "https://app.ardoq.com/api/workspace/zzz";
                     params := [("org", VStr "acme")];
                     json := None;
                     req_headers := headers (session Demo.client) |} ] |}).
Proof. reflexivity. Qed.

Lemma get_model_requests_witness :
  get_model (R := Demo.requests) (VStr "a") Demo.cached
  = (Ok (Demo.id_doc "m1"),
     {| self := with_model (Demo.id_doc "m1")
                  (with_workspace (Demo.ws_doc "a" "m1") (self Demo.cached));
        sent := [ {| verb := GET;
                     url := "https://app.ardoq.com/api/workspace/a";
                     params := [("org", VStr "acme")];
                     json := None;
                     req_headers := headers (session Demo.client) |};
                  {| verb := GET;
                     url := "https://app.ardoq.com/api/model/m1";
                     params := [("org", VStr "acme")];
                     json := None;
                     req_headers := headers (session Demo.client) |} ] |}).
Proof.
  apply (proj2 (get_model_requests (R := Demo.requests) "a" Demo.cached)
           (Demo.ws_doc "a" "m1") "m1"); reflexivity.
Defined.

Lemma get_model_overwrites_workspace_witness :
  workspace (self Demo.cached) = Demo.ws_doc "b" "m2" /\
  exists (s : string) (ws : value) (w1 : World),
    VStr "a" = VStr s /\
    _get (R := Demo.requests) ("workspace/" ++ s) [] Demo.cached
      = (Ok ws, w1) /\
    workspace
      (self (snd (get_model (R := Demo.requests) (VStr "a") Demo.cached)))
      = ws /\
    model
      (self (snd (get_model (R := Demo.requests) (VStr "a") Demo.cached)))
      = Demo.id_doc "m1".
Proof.
  split; [ reflexivity | ].
  apply (get_model_overwrites_workspace (R := Demo.requests)
           (VStr "a") (Demo.id_doc "m1") Demo.cached
           (snd (get_model (R := Demo.requests) (VStr "a") Demo.cached))).
  reflexivity.
Defined.

Lemma get_reference_spec_witness :
  VStr "a" <> VNone /\
  get_reference (R := Demo.requests) (VStr "a") VNone (fresh Demo.client)
  = (Ok (VList []),
     {| self := Demo.client;
        sent := [ {| verb := GET;
                     url := "https://app.ardoq.com/api/reference/";
                     params := [("workspace", VStr "a"); ("org", VStr "acme")];
                     json := None;
                     req_headers := headers (session Demo.client) |} ] |}).
Proof.
  split; [ discriminate | ].
  etransitivity.
  - apply (get_reference_spec (R := Demo.requests) (VStr "a") None
             (fresh Demo.client)).
    discriminate.
  - reflexivity.
Defined.

Lemma org_on_every_request_witness :
  __init__ (R := Demo.requests)
    (VStr "https://app.ardoq.com") (VStr "secret") (VStr "acme")
    = Ok Demo.client /\
  forall (cs : list call) (r : Request),
    In r (sent (run_calls (R := Demo.requests) cs (fresh Demo.client))) ->
    dict_get "org" (params r) = Some (VStr "acme").
Proof.
  split; [ reflexivity | ].
  apply (proj2 (org_on_every_request (R := Demo.requests))
           (VStr "https://app.ardoq.com") (VStr "secret") (VStr "acme")
           Demo.client).
  reflexivity.
Defined.

Lemma authorization_on_every_request_witness :
  __init__ (R := Demo.requests)
    (VStr "https://app.ardoq.com") (VStr "secret") (VStr "acme")
    = Ok Demo.client /\
  exists t : string,
    VStr "secret" = VStr t /\
    forall (cs : list call) (r : Request),
      In r (sent (run_calls (R := Demo.requests) cs (fresh Demo.client))) ->
      header_get "Authorization" (req_headers r)
        = Some ("Token token=" ++ t)%string.
Proof.
  split; [ reflexivity | ].
  apply (authorization_on_every_request (R := Demo.requests)
           (VStr "https://app.ardoq.com") (VStr "secret") (VStr "acme")
           Demo.client).
  reflexivity.
Defined.

Example run_calls_demo :
  map url
    (sent (run_calls (R := Demo.requests)
             [Get_workspaces; Get_model (VStr "a"); Del_component VNone;
              Create_component (VDict []); Get_reference (VStr "a") VNone]
             (fresh Demo.client)))
  = [ "https://app.ardoq.com/api/workspace";
      "https://app.ardoq.com/api/workspace/a";
      "https://app.ardoq.com/api/model/m1";
      "https://app.ardoq.com/api/component";
      "https://app.ardoq.com/api/reference/" ].
Proof. reflexivity. Qed.

(** * Further properties of the client *)

(** A request built by a helper from a resource path and no keyword
    arguments of the caller. *)
Definition request (m : method) (resrc : string) (body : option value)
    (w : World) : Request :=
  {| verb := m;
     url := baseurl (self w) ++ resrc;
     params := [("org", org (self w))];
     json := body;
     req_headers := headers (session (self w)) |}.

Section Further.

Context {R : Requests}.

(** One round trip: the request is logged, the client stays, and the
    outcome is the unwrapped response (or what the network raised). *)
Definition round_trip (r : Request) (w : World) : result value * World :=
  (rbind (transport (sent w) r) _unwrap_response,
   {| self := self w; sent := sent w ++ [r] |}).

Lemma helper_round_trip (m : method) (resrc : string) (payload : value)
    (w : World) :
  helper m resrc payload [] w = round_trip (request m resrc (body_of m payload) w) w.
Proof. apply helper_run. Qed.

Lemma bind_ret (m : M value) (w : World) :
  bind m (fun res => ret res) w = m w.
Proof. unfold bind, ret. destruct (m w) as [[v|e] w1]; reflexivity. Qed.

Ltac one_helper m payload :=
  unfold bind at 1; unfold lift at 1; cbn [str_add];
  rewrite bind_ret; exact (helper_round_trip m _ payload _).

(** X1. Creating and deleting: with a payload (resp. a [str] id) each of
    [create_workspace], [create_component], [create_reference] POSTs the
    payload as JSON to its collection, each of [del_workspace],
    [del_component], [del_reference] DELETEs the resource of that id, in
    one round trip. *)
Theorem create_delete_round_trip (payload : value) (id : string) (w : World) :
  payload <> VNone ->
  create_workspace payload w
    = round_trip (request POST "workspace" (Some payload) w) w /\
  create_component payload w
    = round_trip (request POST "component" (Some payload) w) w /\
  create_reference payload w
    = round_trip (request POST "reference" (Some payload) w) w /\
  del_workspace (VStr id) w
    = round_trip (request DELETE ("workspace/" ++ id) None w) w /\
  del_component (VStr id) w
    = round_trip (request DELETE ("component/" ++ id) None w) w /\
  del_reference (VStr id) w
    = round_trip (request DELETE ("reference/" ++ id) None w) w.
Proof.
  intros Hp. apply not_None in Hp.
  unfold create_workspace, create_component, create_reference,
    del_workspace, del_component, del_reference.
  rewrite Hp. cbn [is_None].
  repeat split.
  - rewrite bind_ret. exact (helper_round_trip POST _ payload w).
  - rewrite bind_ret. exact (helper_round_trip POST _ payload w).
  - rewrite bind_ret. exact (helper_round_trip POST _ payload w).
  - one_helper DELETE VNone.
  - one_helper DELETE VNone.
  - one_helper DELETE VNone.
Qed.

(** X2. [update_component] PUTs the component as JSON to
    ['component/'] and the component id; the workspace id, though
    required, takes no part in the request: any two workspace ids that are
    not [None] give the same run. *)
Theorem update_component_ignores_workspace
    (ws_id ws_id' comp : value) (comp_id : string) (w : World) :
  ws_id <> VNone -> ws_id' <> VNone -> comp <> VNone ->
  update_component ws_id (VStr comp_id) comp w
    = round_trip (request PUT ("component/" ++ comp_id) (Some comp) w) w /\
  update_component ws_id (VStr comp_id) comp w
    = update_component ws_id' (VStr comp_id) comp w.
Proof.
  intros H1 H2 H3. apply not_None in H1, H2, H3.
  assert (E : forall x, is_None x = false ->
            update_component x (VStr comp_id) comp w
            = round_trip (request PUT ("component/" ++ comp_id) (Some comp) w) w).
  { intros x Hx. unfold update_component. rewrite Hx, H3. cbn [is_None orb].
    one_helper PUT comp. }
  split; [ now apply E | now rewrite !E ].
Qed.

(** X3. [get_component] with a component id fetches ['component/'] and
    that id, whatever the workspace id (which need not even be a [str]);
    without one it fetches ['workspace/<ws_id>/component']. *)
Theorem get_component_paths (ws_id : value) (w : World) :
  ws_id <> VNone ->
  (forall comp_id : string,
      get_component ws_id (VStr comp_id) w
        = round_trip (request GET ("component/" ++ comp_id) None w) w) /\
  (forall s : string,
      ws_id = VStr s ->
      get_component ws_id VNone w
        = round_trip (request GET ("workspace/" ++ s ++ "/component") None w)
            w).
Proof.
  intros H. apply not_None in H. split.
  - intros comp_id. unfold get_component. rewrite H. cbn [is_None negb].
    one_helper GET VNone.
  - intros s ->. unfold get_component. cbn [is_None negb].
    unfold bind at 1; unfold lift at 1; cbn [str_add rbind].
    rewrite bind_ret.
    exact (helper_round_trip GET ("workspace/" ++ s ++ "/component") VNone w).
Qed.

(** ** Listing workspaces *)

Lemma get_workspaces_run (w : World) :
  get_workspaces w =
    match rbind (transport (sent w) (request GET "workspace" None w))
                _unwrap_response with
    | Ok v => (Ok v, {| self := with_workspaces v (self w);
                        sent := sent w ++ [request GET "workspace" None w] |})
    | Raised e => (Raised e,
                   {| self := self w;
                      sent := sent w ++ [request GET "workspace" None w] |})
    end.
Proof.
  unfold get_workspaces. unfold bind at 1. rewrite _get_run.
  change (request_of GET "workspace" VNone [] w)
    with (request GET "workspace" None w).
  destruct (rbind (transport (sent w) (request GET "workspace" None w))
                  _unwrap_response); reflexivity.
Qed.

(** X4. [get_workspaces] issues one GET of ['workspace'].  When it fails
    the exception is passed on and the client is as before, the old list
    included; when it succeeds only the list cache changes:
    [self.workspace] and [self.model] keep their values. *)
Theorem get_workspaces_touches_only_the_list (w : World) :
  sent (snd (get_workspaces w))
    = (sent w ++ [request GET "workspace" None w])%list /\
  (forall e, fst (get_workspaces w) = Raised e ->
             self (snd (get_workspaces w)) = self w) /\
  (forall v, fst (get_workspaces w) = Ok v ->
             workspaces (self (snd (get_workspaces w))) = v /\
             workspace (self (snd (get_workspaces w))) = workspace (self w) /\
             model (self (snd (get_workspaces w))) = model (self w)).
Proof.
  rewrite get_workspaces_run.
  destruct (rbind (transport (sent w) (request GET "workspace" None w))
                  _unwrap_response) as [v|e]; cbn.
  - split; [ reflexivity | split ].
    + intros e He. discriminate.
    + intros v' Hv. inversion Hv. subst. auto.
  - split; [ reflexivity | split ].
    + reflexivity.
    + intros v Hv. discriminate.
Qed.

(** ** More on the workspace cache *)

Lemma get_workspace_hit (ws_id : value) (l : list value) (e : value)
    (w : World) :
  ws_id <> VNone ->
  workspaces (self w) = VList l ->
  forallb has_id l = true ->
  In e l ->
  py_eq (id_of e) ws_id = true ->
  (forall e', In e' l -> py_eq (id_of e') ws_id = true -> e' = e) ->
  get_workspace ws_id w = (Ok e, cache e w).
Proof.
  intros Hid Hw Hwf Hin Heq Huniq.
  rewrite (get_workspace_list ws_id l w Hid Hw Hwf).
  destruct (last_match ws_id l 0) as [[j e']|] eqn:E.
  - destruct (last_match_In _ _ _ _ _ E) as [Hin' Heq'].
    now rewrite (Huniq e' Hin' Heq').
  - rewrite (last_match_None _ _ _ E e Hin) in Heq. discriminate.
Qed.

(** X5. Listing, then asking for one of the listed workspaces by its
    [_id]: the second call is answered from the list, so that the two
    calls issue one request in all. *)
Theorem list_then_get_workspace (ws_id : value) (l : list value) (e : value)
    (w : World) :
  ws_id <> VNone ->
  rbind (transport (sent w) (request GET "workspace" None w))
        _unwrap_response = Ok (VList l) ->
  forallb has_id l = true ->
  In e l ->
  py_eq (id_of e) ws_id = true ->
  (forall e', In e' l -> py_eq (id_of e') ws_id = true -> e' = e) ->
  bind get_workspaces (fun _ => get_workspace ws_id) w =
    (Ok e,
     {| self := with_workspace e (with_workspaces (VList l) (self w));
        sent := sent w ++ [request GET "workspace" None w] |}).
Proof.
  intros Hid Hresp Hwf Hin Heq Huniq.
  unfold bind. rewrite get_workspaces_run, Hresp.
  rewrite (get_workspace_hit ws_id l e); auto.
Qed.

Lemma del_workspace_str (s : string) (w : World) :
  del_workspace (VStr s) w
    = round_trip (request DELETE ("workspace/" ++ s) None w) w.
Proof.
  unfold del_workspace. cbn [is_None]. one_helper DELETE VNone.
Qed.

(** X6. The cache does not learn of a deletion: after
    [del_workspace(id)], whatever the server answered,
    [get_workspace(id)] still returns the listed entry and issues no
    request. *)
Theorem deleted_workspace_still_cached (s : string) (l : list value)
    (e : value) (w : World) :
  workspaces (self w) = VList l ->
  forallb has_id l = true ->
  In e l ->
  py_eq (id_of e) (VStr s) = true ->
  (forall e', In e' l -> py_eq (id_of e') (VStr s) = true -> e' = e) ->
  get_workspace (VStr s) (snd (del_workspace (VStr s) w))
    = (Ok e,
       {| self := with_workspace e (self w);
          sent := sent w ++ [request DELETE ("workspace/" ++ s) None w] |}).
Proof.
  intros Hw Hwf Hin Heq Huniq.
  rewrite del_workspace_str. unfold round_trip. cbn [snd].
  rewrite (get_workspace_hit (VStr s) l e); auto. discriminate.
Qed.

Lemma last_match_no_match ws_id l : forall i,
  (forall x, In x l -> py_eq (id_of x) ws_id = false) ->
  last_match ws_id l i = None.
Proof.
  induction l as [|v rest IH]; intros i H; cbn; [ reflexivity | ].
  rewrite IH by (intros x Hx; apply H; now right).
  now rewrite (H v (or_introl eq_refl)).
Qed.

Lemma last_match_app ws_id l1 l2 : forall i,
  last_match ws_id (l1 ++ l2) i =
    match last_match ws_id l2 (i + List.length l1) with
    | Some r => Some r
    | None => last_match ws_id l1 i
    end.
Proof.
  induction l1 as [|v rest IH]; intros i; cbn [app last_match List.length].
  - rewrite Nat.add_0_r. now destruct (last_match ws_id l2 i).
  - rewrite IH. rewrite Nat.add_succ_r. cbn [Nat.add].
    destruct (last_match ws_id l2 (S (i + List.length rest))); reflexivity.
Qed.

(** X7. When several listed entries have the given [_id],
    [get_workspace] returns the last of them. *)
Theorem get_workspace_last_duplicate (ws_id : value)
    (pre post : list value) (e : value) (w : World) :
  ws_id <> VNone ->
  workspaces (self w) = VList (pre ++ e :: post) ->
  forallb has_id (pre ++ e :: post) = true ->
  py_eq (id_of e) ws_id = true ->
  (forall x, In x post -> py_eq (id_of x) ws_id = false) ->
  get_workspace ws_id w =
    (Ok e, {| self := with_workspace e (self w); sent := sent w |}).
Proof.
  intros Hid Hw Hwf Heq Hpost.
  rewrite (get_workspace_list ws_id _ w Hid Hw Hwf).
  rewrite last_match_app. cbn [last_match].
  rewrite (last_match_no_match ws_id post _ Hpost), Heq. reflexivity.
Qed.



(** ** More on models *)

(** X9. When the workspace fetched by [get_model] cannot give a
    [componentModel] (the key is missing, as in the empty mapping of a
    204 answer: [KeyError]), the call raises after that one request; by
    then [self.workspace] is the fetched value, and [self.model] is what
    it was. *)
Theorem get_model_missing_component_model (s : string) (ws : value)
    (x : exn) (w : World) :
  rbind (transport (sent w) (request GET ("workspace/" ++ s) None w))
        _unwrap_response = Ok ws ->
  py_getitem ws (VStr "componentModel") = Raised x ->
  get_model (VStr s) w =
    (Raised x,
     {| self := with_workspace ws (self w);
        sent := sent w ++ [request GET ("workspace/" ++ s) None w] |}) /\
  model (self (snd (get_model (VStr s) w))) = model (self w) /\
  (ws = VDict [] -> x = Exn KeyError (VStr "componentModel")).
Proof.
  intros Hws Hcm.
  assert (E : get_model (VStr s) w =
    (Raised x,
     {| self := with_workspace ws (self w);
        sent := sent w ++ [request GET ("workspace/" ++ s) None w] |})).
  { rewrite get_model_str, _get_run.
    change (request_of GET ("workspace/" ++ s) VNone [] w)
      with (request GET ("workspace/" ++ s) None w).
    rewrite Hws, Hcm. reflexivity. }
  split; [ exact E | split ].
  - rewrite E. reflexivity.
  - intros ->. cbn in Hcm. congruence.
Qed.

(** ** Identifiers that are not strings *)

(** The identifier an operation appends to its resource path, once its
    arguments have passed the [None] checks. *)
Definition path_id (c : call) : option value :=
  match c with
  | Del_workspace id | Get_model id | Del_component id | Del_reference id =>
      Some id
  | Update_component _ comp_id _ => Some comp_id
  | Get_component ws_id comp_id =>
      Some (if is_None comp_id then ws_id else comp_id)
  | Get_reference _ ref_id => Some ref_id
  | _ => None
  end.

(** X10. An identifier that is neither [None] nor a [str] makes the
    operation raise [TypeError] where the path is put together: no request
    is issued and the client is as before. *)
Theorem non_string_id_raises (c : call) (v : value) (w : World) :
  required_absent c = false ->
  path_id c = Some v ->
  v <> VNone ->
  (forall s, v <> VStr s) ->
  perform c w = (Raised (Exn TypeError VNone), w).
Proof.
  intros Hreq Hpath Hn Hs.
  assert (Hadd : forall p, str_add p v = Raised (Exn TypeError VNone)).
  { intros p. destruct v; try reflexivity. now destruct (Hs s). }
  apply not_None in Hn.
  destruct c; cbn in Hreq, Hpath; inversion Hpath; subst; clear Hpath;
    cbn [perform];
    unfold del_workspace, get_model, get_component, update_component,
      del_component, get_reference, del_reference;
    rewrite ?Hreq, ?Hn; cbn [negb]; cbv zeta;
    try (unfold bind at 1, lift at 1; rewrite Hadd; reflexivity).
  destruct (is_None comp_id) eqn:Hc; cbn [negb];
    unfold bind at 1, lift at 1; rewrite Hadd; reflexivity.
Qed.

(** ** More on construction *)

Definition is_str (v : value) : bool :=
  match v with VStr _ => true | _ => false end.

(** X11. The constructor returns exactly when the host URL and the token
    are both [str]; otherwise it raises [TypeError].  A client it returns
    has the host URL followed by ['/api/'] as its base, the given
    organization, and empty caches. *)
Theorem init_succeeds_iff (hosturl tok o : value) :
  (is_str hosturl && is_str tok = false ->
     __init__ hosturl tok o = Raised (Exn TypeError VNone)) /\
  (is_str hosturl && is_str tok = true ->
     exists (h : string) (c : ArdoqClient),
       hosturl = VStr h /\
       __init__ hosturl tok o = Ok c /\
       baseurl c = (h ++ "/api/")%string /\ token c = tok /\ org c = o /\
       workspaces c = VNone /\ workspace c = VNone /\ model c = VNone).
Proof.
  split.
  - destruct hosturl; try reflexivity.
    destruct tok; try reflexivity. discriminate.
  - destruct hosturl; try discriminate.
    destruct tok; try discriminate. intros _.
    eexists s, _. split; [ reflexivity | split; [ reflexivity | ] ].
    cbn. auto 10.
Qed.

Lemma header_eqb_trans_false (a b c : string) :
  header_eqb a b = true -> header_eqb b c = false -> header_eqb a c = false.
Proof.
  unfold header_eqb. intros Hab Hbc.
  apply String.eqb_eq in Hab. now rewrite Hab.
Qed.

Lemma header_get_set_neq (k k' v : string) (h : headers_t) :
  header_eqb k k' = false ->
  header_get k' (header_set k v h) = header_get k' h.
Proof.
  intros Hne. induction h as [|[k0 v0] h IH]; cbn.
  - now rewrite Hne.
  - destruct (header_eqb k0 k) eqn:E; cbn.
    + now rewrite Hne, (header_eqb_trans_false k0 k k' E Hne).
    + now rewrite IH.
Qed.

(** X12. The constructor only sets [Authorization] on the new session:
    every other header is the one a new session starts with. *)
Theorem init_keeps_default_headers (hosturl tok o : value) (c : ArdoqClient)
    (k : string) :
  __init__ hosturl tok o = Ok c ->
  header_eqb "Authorization" k = false ->
  header_get k (headers (session c)) = header_get k default_headers.
Proof.
  intros Hc Hk. destruct (init_inv _ _ _ _ Hc) as (h & t & _ & _ & ->).
  cbn [session headers]. now apply header_get_set_neq.
Qed.

(** ** What no sequence of calls changes *)

Ltac via_helper H :=
  intros;
  first [ exact (H GET _ VNone _) | exact (H POST _ _ _)
        | exact (H PUT _ _ _) | exact (H DELETE _ VNone _) ].

(** A request under the client's base URL, with a JSON body exactly when
    it is a POST or a PUT. *)
Definition shaped (w : World) (r : Request) : Prop :=
  (exists resrc : string, url r = (baseurl (self w) ++ resrc)%string) /\
  (json r = None <-> verb r = GET \/ verb r = DELETE).

Definition same_config (c c' : ArdoqClient) : Prop :=
  baseurl c' = baseurl c /\ token c' = token c /\ org c' = org c /\
  session c' = session c.

Definition steady (w w' : World) : Prop :=
  same_config (self w) (self w') /\
  exists new, sent w' = (sent w ++ new)%list /\ Forall (shaped w) new.

Lemma steady_refl w : steady w w.
Proof.
  split; [ repeat split | ].
  exists []. split; [ now rewrite app_nil_r | constructor ].
Qed.

Lemma steady_trans a b c : steady a b -> steady b c -> steady a c.
Proof.
  intros ((Hb & Ht & Ho & Hs) & n1 & E1 & F1)
         ((Hb' & Ht' & Ho' & Hs') & n2 & E2 & F2).
  split; [ repeat split; congruence | ].
  exists (n1 ++ n2)%list. split.
  - now rewrite E2, E1, app_assoc.
  - apply Forall_app. split; auto.
    eapply Forall_impl; [ | exact F2 ].
    intros r [[resrc Hu] Hj]. split; [ | exact Hj ].
    exists resrc. now rewrite <- Hb.
Qed.

Lemma helper_steady m resrc payload kwargs :
  keeps steady (helper m resrc payload kwargs).
Proof.
  intros w. rewrite helper_run. cbn [snd].
  split; [ repeat split | ].
  exists [request_of m resrc payload kwargs w]. split; [ reflexivity | ].
  constructor; [ | constructor ]. split.
  - now exists resrc.
  - destruct m; cbn; split; intros H; auto; try discriminate;
      destruct H; discriminate.
Qed.

Lemma set_self_steady (f : ArdoqClient -> ArdoqClient) :
  (forall c, same_config c (f c)) -> keeps steady (set_self f).
Proof.
  intros Hf w. split; [ apply Hf | ].
  exists []. split; [ cbn; now rewrite app_nil_r | constructor ].
Qed.

Lemma run_calls_steady (cs : list call) (w : World) :
  steady w (run_calls cs w).
Proof.
  apply (keeps_run_calls steady); try via_helper helper_steady.
  - exact steady_refl.
  - exact steady_trans.
  - intros v. apply set_self_steady. intros c. repeat split.
  - intros v. apply set_self_steady. intros c. repeat split.
  - intros v. apply set_self_steady. intros c. repeat split.
Qed.

(** X13. The configuration of a client does not change over its life:
    after any sequence of calls, returning or raising, the base URL, the
    token, the organization and the session are what they were. *)
Theorem configuration_is_immutable (cs : list call) (w : World) :
  baseurl (self (run_calls cs w)) = baseurl (self w) /\
  token (self (run_calls cs w)) = token (self w) /\
  org (self (run_calls cs w)) = org (self w) /\
  session (self (run_calls cs w)) = session (self w).
Proof. exact (proj1 (run_calls_steady cs w)). Qed.

(** X14. Every request of a client constructed with host URL [h] goes to
    a URL that starts with [h] and ['/api/'], and carries a JSON body
    exactly when it is a POST or a PUT. *)
Theorem requests_stay_under_api_root (hosturl tok o : value)
    (c : ArdoqClient) :
  __init__ hosturl tok o = Ok c ->
  exists h : string,
    hosturl = VStr h /\
    forall (cs : list call) (r : Request),
      In r (sent (run_calls cs (fresh c))) ->
      (exists resrc : string, url r = (h ++ "/api/" ++ resrc)%string) /\
      (json r = None <-> verb r = GET \/ verb r = DELETE).
Proof.
  intros Hc. destruct (init_inv _ _ _ _ Hc) as (h & t & Hh & _ & Ec).
  exists h. split; [ exact Hh | ].
  intros cs r Hin.
  destruct (run_calls_steady cs (fresh c)) as (_ & new & E & F).
  rewrite E in Hin. cbn in Hin. rewrite Forall_forall in F.
  destruct (F r Hin) as [[resrc Hu] Hj]. split; [ | exact Hj ].
  exists resrc. rewrite Hu, Ec. cbn [fresh self baseurl].
  clear. induction h as [|a h IH]; cbn; [ reflexivity | now rewrite IH ].
Qed.

(** ** How many requests a call issues *)

Definition sends_at_most {A} (n : nat) (m : M A) : Prop :=
  forall w, exists new,
    sent (snd (m w)) = (sent w ++ new)%list /\ (List.length new <= n)%nat.

Lemma sends_nothing {A} (m : M A) :
  (forall w, sent (snd (m w)) = sent w) -> sends_at_most 0 m.
Proof.
  intros H w. exists []. rewrite H, app_nil_r. split; [ reflexivity | cbn; lia ].
Qed.

Lemma sends_ret {A} (a : A) : sends_at_most 0 (ret a).
Proof. now apply sends_nothing. Qed.

Lemma sends_raise {A} c arg : sends_at_most 0 (@raise A c arg).
Proof. now apply sends_nothing. Qed.

Lemma sends_lift {A} (r : result A) : sends_at_most 0 (lift r).
Proof. now apply sends_nothing. Qed.

Lemma sends_get_self : sends_at_most 0 get_self.
Proof. now apply sends_nothing. Qed.

Lemma sends_set_self f : sends_at_most 0 (set_self f).
Proof. now apply sends_nothing. Qed.

Lemma sends_bind {A B} (a b : nat) (m : M A) (k : A -> M B) :
  sends_at_most a m -> (forall x, sends_at_most b (k x)) ->
  sends_at_most (a + b) (bind m k).
Proof.
  intros Hm Hk w. unfold bind. destruct (Hm w) as (n1 & E1 & L1).
  destruct (m w) as [[x|e] w1]; cbn [snd] in *.
  - destruct (Hk x w1) as (n2 & E2 & L2).
    exists (n1 ++ n2)%list. rewrite E2, E1, app_assoc, length_app.
    split; [ reflexivity | lia ].
  - exists n1. split; [ exact E1 | lia ].
Qed.

Lemma sends_if {A} (a b : nat) (c : bool) (x y : M A) :
  sends_at_most a x -> sends_at_most b y ->
  sends_at_most (Nat.max a b) (if c then x else y).
Proof.
  intros Hx Hy w. destruct c.
  - destruct (Hx w) as (n & E & L). exists n. split; [ exact E | lia ].
  - destruct (Hy w) as (n & E & L). exists n. split; [ exact E | lia ].
Qed.

Lemma sends_weaken {A} (a b : nat) (m : M A) :
  sends_at_most a m -> (a <= b)%nat -> sends_at_most b m.
Proof.
  intros Hm Hab w. destruct (Hm w) as (n & E & L).
  exists n. split; [ exact E | lia ].
Qed.

Lemma sends_helper m resrc payload kwargs :
  sends_at_most 1 (helper m resrc payload kwargs).
Proof.
  intros w. rewrite helper_run.
  exists [request_of m resrc payload kwargs w]. split; [ reflexivity | cbn; lia ].
Qed.

Lemma sends_scan ws_id items i ws_index :
  sends_at_most 0 (scan_workspaces ws_id items i ws_index).
Proof.
  apply sends_nothing. intros w.
  apply (keeps_scan (fun a b => sent b = sent a)).
  - reflexivity.
  - intros a b c Hab Hbc. congruence.
  - intros v x. reflexivity.
Qed.

Ltac sends_step :=
  first
    [ apply sends_ret | apply sends_raise | apply sends_lift
    | apply sends_get_self | apply sends_set_self | apply sends_scan
    | exact (sends_helper GET _ VNone _) | exact (sends_helper POST _ _ _)
    | exact (sends_helper PUT _ _ _) | exact (sends_helper DELETE _ VNone _)
    | eapply sends_bind; [ | intro ]
    | eapply sends_if ].

Ltac sends_count :=
  eapply sends_weaken; [ repeat sends_step | cbn; lia ].

(** X15. No call retries or fans out: a public operation issues at most
    one request, [get_model] at most two, and the log of a run only grows,
    by at most two requests a call. *)
Theorem at_most_two_requests_a_call :
  (forall (c : call) (w : World),
      exists new,
        sent (snd (perform c w)) = (sent w ++ new)%list /\
        (List.length new
           <= match c with Get_model _ => 2 | _ => 1 end)%nat) /\
  (forall (cs : list call) (w : World),
      exists new,
        sent (run_calls cs w) = (sent w ++ new)%list /\
        (List.length new <= 2 * List.length cs)%nat).
Proof.
  assert (H1 : forall c,
             sends_at_most (match c with Get_model _ => 2 | _ => 1 end)
               (perform c)).
  { destruct c; cbn [perform];
      unfold get_workspaces, get_workspace, create_workspace, del_workspace,
        get_model, create_component, get_component, update_component,
        del_component, create_reference, get_reference, del_reference;
      cbv zeta; sends_count. }
  split; [ exact H1 | ].
  induction cs as [|c cs IH]; intros w; cbn [run_calls List.length].
  - exists []. rewrite app_nil_r. split; [ reflexivity | cbn; lia ].
  - destruct (H1 c w) as (n1 & E1 & L1).
    destruct (IH (snd (perform c w))) as (n2 & E2 & L2).
    exists (n1 ++ n2)%list. rewrite E2, E1, app_assoc, length_app.
    split; [ reflexivity | ].
    assert (List.length n1 <= 2)%nat by (destruct c; lia). lia.
Qed.

(** ** A cache that is not a list *)

(** What [self.workspaces] may hold after a listing that did not answer
    with a list: something a [for] loop cannot go over, or whose items
    cannot be asked for an [_id]. *)
Definition unusable_listing (v : value) : bool :=
  match v with
  | VBool _ | VInt _ | VFloat _ => true
  | VDict (_ :: _) => true
  | VStr (String _ _) => true
  | _ => false
  end.

(** X16. [get_workspace] trusts [self.workspaces] to be a list of
    mappings.  Over a number, a boolean, a mapping with keys or a text
    that is not empty it raises [TypeError], whatever the id, with no
    request and the client as before; over an empty mapping (what a 204
    answer to the listing leaves) it fetches the workspace directly, as
    when nothing was listed. *)
Theorem get_workspace_over_a_non_list (ws_id : value) (w : World) :
  ws_id <> VNone ->
  (unusable_listing (workspaces (self w)) = true ->
     get_workspace ws_id w = (Raised (Exn TypeError VNone), w)) /\
  (workspaces (self w) = VDict [] ->
     forall s, ws_id = VStr s ->
     get_workspace ws_id w =
       match rbind (transport (sent w)
                      (request GET ("workspace/" ++ s) None w))
                   _unwrap_response with
       | Ok v => (Ok v, {| self := with_workspace v (self w);
                           sent := sent w
                             ++ [request GET ("workspace/" ++ s) None w] |})
       | Raised x => (Raised x,
                      {| self := self w;
                         sent := sent w
                           ++ [request GET ("workspace/" ++ s) None w] |})
       end).
Proof.
  intros Hid. apply not_None in Hid. split.
  - intros Hbad. unfold get_workspace. rewrite Hid.
    unfold bind at 1. unfold get_self at 1. cbn [self].
    destruct (workspaces (self w)) as [ |b|n|f|t|l|d]; try discriminate;
      cbn [is_None negb]; try reflexivity.
    + destruct t as [|a t]; [ discriminate | reflexivity ].
    + destruct d as [|[k x] d]; [ discriminate | reflexivity ].
  - intros Hw s ->. unfold get_workspace. cbn [is_None].
    unfold bind at 1. unfold get_self at 1. cbn [self]. rewrite Hw.
    cbn [is_None negb]. unfold bind at 1. unfold bind at 1.
    unfold lift at 1. cbn [py_iter map scan_workspaces]. unfold ret at 1.
    unfold bind at 1. unfold get_self at 1. cbn [self]. rewrite Hw.
    cbn [is_none is_None orb].
    change ("workspace" ++ "/")%string with "workspace/".
    unfold bind at 1. unfold bind at 1. unfold lift at 1. cbn [str_add].
    unfold bind at 1. rewrite _get_run.
    change (request_of GET ("workspace/" ++ s) VNone [] w)
      with (request GET ("workspace/" ++ s) None w).
    destruct (rbind (transport (sent w)
                       (request GET ("workspace/" ++ s) None w))
                    _unwrap_response); reflexivity.
Qed.

(** ** A network that is down *)

Section Offline.

Variable e0 : exn.
Hypothesis Hdown : forall h r, transport h r = Raised e0.

(** A run that sent nothing, or else ended with the network's
    exception. *)
Definition silent_or_down {A} (m : M A) : Prop :=
  forall w, sent (snd (m w)) = sent w \/ fst (m w) = Raised e0.

Definition never_returns {A} (m : M A) : Prop :=
  forall w a, fst (m w) <> Ok a.

Lemma silent_pure {A} (m : M A) :
  (forall w, sent (snd (m w)) = sent w) -> silent_or_down m.
Proof. intros H w. left. apply H. Qed.

Lemma silent_bind {A B} (m : M A) (k : A -> M B) :
  silent_or_down m -> (forall a, silent_or_down (k a)) ->
  silent_or_down (bind m k).
Proof.
  intros Hm Hk w. unfold bind. specialize (Hm w).
  destruct (m w) as [[a|e] w1]; cbn [fst snd] in *.
  - destruct Hm as [Hm|Hm]; [ | discriminate ].
    rewrite <- Hm. apply Hk.
  - destruct Hm as [Hm|Hm]; [ now left | right ].
    inversion Hm. reflexivity.
Qed.

Lemma silent_helper m resrc payload kwargs :
  silent_or_down (helper m resrc payload kwargs).
Proof. intros w. right. rewrite helper_run, Hdown. reflexivity. Qed.

Lemma silent_scan ws_id items i ws_index :
  silent_or_down (scan_workspaces ws_id items i ws_index).
Proof.
  apply silent_pure. intros w.
  apply (keeps_scan (fun a b => sent b = sent a)).
  - reflexivity.
  - intros a b c Hab Hbc. congruence.
  - intros v x. reflexivity.
Qed.

Ltac silent_step :=
  first
    [ apply silent_scan
    | exact (silent_helper GET _ VNone _) | exact (silent_helper POST _ _ _)
    | exact (silent_helper PUT _ _ _) | exact (silent_helper DELETE _ VNone _)
    | apply silent_bind; [ | intro ]
    | match goal with
      | |- silent_or_down (if ?b then _ else _) => destruct b
      end
    | (apply silent_pure; intros; reflexivity) ].

Lemma silent_perform (c : call) : silent_or_down (perform c).
Proof.
  destruct c; cbn [perform];
    unfold get_workspaces, get_workspace, create_workspace, del_workspace,
      get_model, create_component, get_component, update_component,
      del_component, create_reference, get_reference, del_reference;
    cbv zeta; repeat silent_step.
Qed.

Lemma never_raise {A} c arg : never_returns (@raise A c arg).
Proof. intros w a. discriminate. Qed.

Lemma never_helper m resrc payload kwargs :
  never_returns (helper m resrc payload kwargs).
Proof. intros w a. rewrite helper_run, Hdown. discriminate. Qed.

Lemma never_bind_l {A B} (m : M A) (k : A -> M B) :
  never_returns m -> never_returns (bind m k).
Proof.
  intros Hm w b. unfold bind. specialize (Hm w).
  destruct (m w) as [[a|e] w1]; cbn [fst] in *.
  - now destruct (Hm a).
  - discriminate.
Qed.

Lemma never_bind_lift {A B} (r : result A) (k : A -> M B) :
  (forall a, never_returns (k a)) -> never_returns (bind (lift r) k).
Proof.
  intros Hk w b. unfold bind, lift. destruct r as [a|e].
  - apply Hk.
  - discriminate.
Qed.

Ltac never_step :=
  first
    [ apply never_raise
    | exact (never_helper GET _ VNone _) | exact (never_helper POST _ _ _)
    | exact (never_helper PUT _ _ _) | exact (never_helper DELETE _ VNone _)
    | apply never_bind_lift; intro
    | apply never_bind_l
    | match goal with
      | |- never_returns (if ?b then _ else _) => destruct b
      end ].

Lemma never_perform (c : call) :
  (forall ws_id, c <> Get_workspace ws_id) -> never_returns (perform c).
Proof.
  intros Hc.
  destruct c; try (now destruct (Hc ws_id)); cbn [perform];
    unfold get_workspaces, create_workspace, del_workspace,
      get_model, create_component, get_component, update_component,
      del_component, create_reference, get_reference, del_reference;
    cbv zeta; repeat never_step.
Qed.

End Offline.

(** X17. With the network down (the session raises [e0] for every
    request), a call that issued a request ends with [e0] itself, not
    wrapped; and the only call that can still return is a
    [get_workspace] answered from the list cache. *)
Theorem network_down (e0 : exn) :
  (forall h r, transport h r = Raised e0) ->
  forall (c : call) (w : World),
    (sent (snd (perform c w)) = sent w \/ fst (perform c w) = Raised e0) /\
    (forall v, fst (perform c w) = Ok v ->
       (exists ws_id, c = Get_workspace ws_id) /\
       sent (snd (perform c w)) = sent w).
Proof.
  intros Hdown c w.
  pose proof (silent_perform e0 Hdown c w) as Hs.
  split; [ exact Hs | ].
  intros v Hv. split.
  - destruct c; try (eexists; reflexivity);
      exfalso; refine (never_perform e0 Hdown _ _ w v Hv);
      intros ws_id'; discriminate.
  - destruct Hs as [Hs|Hs]; [ exact Hs | congruence ].
Qed.

End Further.

(** * More servers to run the client on *)

Module Listing.

(** [[<workspace a>, <workspace b>]] *)
Definition listing_text : string :=
  "[" ++ Demo.ws_text "a" "m1" ++ ", " ++ Demo.ws_text "b" "m2" ++ "]".

Definition loads (s : string) : option value :=
  if String.eqb s listing_text then Some (VList Demo.listed)
  else Demo.loads s.

(** The small server, which now lists its workspaces and answers 204 for
    the workspace [void]. *)
Definition serve (history : list Request) (r : Request) : result Response :=
  if Demo.method_eqb (verb r) GET
     && String.eqb (url r) (Demo.base ++ "workspace")
  then Ok (Demo.ok listing_text)
  else if Demo.method_eqb (verb r) GET
          && String.eqb (url r) (Demo.base ++ "workspace/void")
  then Ok {| status_code := 204; reason := "No Content"; text := "" |}
  else Demo.serve history r.

Definition requests : Requests :=
  {| json_loads := loads;
     transport := serve;
     default_headers := default_headers (Requests := Demo.requests) |}.

End Listing.

Module Offline.

Definition refused : exn := Exn RequestException (VStr "connection refused").

Definition requests : Requests :=
  {| json_loads := Demo.loads;
     transport := fun _ _ => Raised refused;
     default_headers := default_headers (Requests := Demo.requests) |}.

End Offline.

Lemma create_delete_round_trip_witness :
  VDict [("name", VStr "n")] <> VNone /\
  create_component (R := Demo.requests) (VDict [("name", VStr "n")])
    (fresh Demo.client)
    = round_trip (R := Demo.requests)
        (request POST "component" (Some (VDict [("name", VStr "n")]))
           (fresh Demo.client))
        (fresh Demo.client) /\
  fst (del_component (R := Demo.requests) (VStr "x") (fresh Demo.client))
    = Ok (VDict []).
Proof.
  split; [ discriminate | split ].
  - apply (create_delete_round_trip (R := Demo.requests)
             (VDict [("name", VStr "n")]) "x" (fresh Demo.client)).
    discriminate.
  - rewrite (proj1 (proj2 (proj2 (proj2 (proj2
               (create_delete_round_trip (R := Demo.requests)
                  (VDict [("name", VStr "n")]) "x" (fresh Demo.client)
                  ltac:(discriminate))))))).
    reflexivity.
Defined.

Lemma update_component_ignores_workspace_witness :
  VStr "a" <> VNone /\ VInt 5 <> VNone /\ VDict [] <> VNone /\
  update_component (R := Demo.requests) (VStr "a") (VStr "x") (VDict [])
    (fresh Demo.client)
  = update_component (R := Demo.requests) (VInt 5) (VStr "x") (VDict [])
      (fresh Demo.client).
Proof.
  repeat (split; [ discriminate | ]).
  apply (update_component_ignores_workspace (R := Demo.requests)
           (VStr "a") (VInt 5) (VDict []) "x" (fresh Demo.client));
    discriminate.
Defined.

Lemma get_component_paths_witness :
  VStr "a" <> VNone /\
  map url
    (sent (snd (get_component (R := Demo.requests) (VStr "a") (VStr "x")
                  (fresh Demo.client))))
    = ["https://app.ardoq.com/api/component/x"] /\
  map url
    (sent (snd (get_component (R := Demo.requests) (VStr "a") VNone
                  (fresh Demo.client))))
    = ["https://app.ardoq.com/api/workspace/a/component"].
Proof.
  split; [ discriminate | split ].
  - rewrite (proj1 (get_component_paths (R := Demo.requests) (VStr "a")
                      (fresh Demo.client) ltac:(discriminate)) "x").
    reflexivity.
  - rewrite (proj2 (get_component_paths (R := Demo.requests) (VStr "a")
                      (fresh Demo.client) ltac:(discriminate)) "a" eq_refl).
    reflexivity.
Defined.

Lemma list_then_get_workspace_witness :
  VStr "b" <> VNone /\
  bind (get_workspaces (R := Listing.requests))
       (fun _ => get_workspace (R := Listing.requests) (VStr "b"))
       (fresh Demo.client)
  = (Ok (Demo.ws_doc "b" "m2"),
     {| self := with_workspace (Demo.ws_doc "b" "m2")
                  (with_workspaces (VList Demo.listed) Demo.client);
        sent := [request GET "workspace" None (fresh Demo.client)] |}).
Proof.
  split; [ discriminate | ].
  apply (list_then_get_workspace (R := Listing.requests)
           (VStr "b") Demo.listed (Demo.ws_doc "b" "m2") (fresh Demo.client)).
  - discriminate.
  - reflexivity.
  - reflexivity.
  - cbn. auto.
  - reflexivity.
  - intros e' [<-|[<-|[]]] H; [ discriminate H | reflexivity ].
Defined.

Lemma deleted_workspace_still_cached_witness :
  workspaces (self Demo.cached) = VList Demo.listed /\
  fst (get_workspace (R := Demo.requests) (VStr "b")
         (snd (del_workspace (R := Demo.requests) (VStr "b") Demo.cached)))
  = Ok (Demo.ws_doc "b" "m2").
Proof.
  split; [ reflexivity | ].
  rewrite (deleted_workspace_still_cached (R := Demo.requests)
             "b" Demo.listed (Demo.ws_doc "b" "m2") Demo.cached).
  - reflexivity.
  - reflexivity.
  - reflexivity.
  - cbn. auto.
  - reflexivity.
  - intros e' [<-|[<-|[]]] H; [ discriminate H | reflexivity ].
Defined.

Lemma get_workspace_last_duplicate_witness :
  get_workspace (R := Demo.requests) (VStr "a")
    {| self := with_workspaces
                 (VList [Demo.ws_doc "a" "m1"; Demo.ws_doc "a" "m9";
                         Demo.ws_doc "b" "m2"]) Demo.client;
       sent := [] |}
  = (Ok (Demo.ws_doc "a" "m9"),
     {| self := with_workspace (Demo.ws_doc "a" "m9")
                  (with_workspaces
                     (VList [Demo.ws_doc "a" "m1"; Demo.ws_doc "a" "m9";
                             Demo.ws_doc "b" "m2"]) Demo.client);
        sent := [] |}).
Proof.
  apply (get_workspace_last_duplicate (R := Demo.requests) (VStr "a")
           [Demo.ws_doc "a" "m1"] [Demo.ws_doc "b" "m2"]
           (Demo.ws_doc "a" "m9")).
  - discriminate.
  - reflexivity.
  - reflexivity.
  - reflexivity.
  - intros x [<-|[]]. reflexivity.
Defined.


Lemma get_model_missing_component_model_witness :
  get_model (R := Listing.requests) (VStr "void") Demo.cached
  = (Raised (Exn KeyError (VStr "componentModel")),
     {| self := with_workspace (VDict []) (self Demo.cached);
        sent := [request GET "workspace/void" None Demo.cached] |}).
Proof.
  apply (get_model_missing_component_model (R := Listing.requests)
           "void" (VDict []) (Exn KeyError (VStr "componentModel"))
           Demo.cached); reflexivity.
Defined.

Lemma non_string_id_raises_witness :
  required_absent (Del_component (VInt 7)) = false /\
  perform (R := Demo.requests) (Del_component (VInt 7)) Demo.cached
  = (Raised (Exn TypeError VNone), Demo.cached).
Proof.
  split; [ reflexivity | ].
  apply (non_string_id_raises (R := Demo.requests) (Del_component (VInt 7))
           (VInt 7) Demo.cached).
  - reflexivity.
  - reflexivity.
  - discriminate.
  - intros s. discriminate.
Defined.

Lemma init_keeps_default_headers_witness :
  header_eqb "Authorization" "accept" = false /\
  header_get "accept" (headers (session Demo.client)) = Some "*/*".
Proof.
  split; [ reflexivity | ].
  rewrite (init_keeps_default_headers (R := Demo.requests)
             (VStr "https://app.ardoq.com") (VStr "secret") (VStr "acme")
             Demo.client "accept"); reflexivity.
Defined.

Lemma requests_stay_under_api_root_witness :
  __init__ (R := Demo.requests)
    (VStr "https://app.ardoq.com") (VStr "secret") (VStr "acme")
    = Ok Demo.client /\
  exists h : string,
    VStr "https://app.ardoq.com" = VStr h /\
    forall (cs : list call) (r : Request),
      In r (sent (run_calls (R := Demo.requests) cs (fresh Demo.client))) ->
      (exists resrc : string, url r = (h ++ "/api/" ++ resrc)%string) /\
      (json r = None <-> verb r = GET \/ verb r = DELETE).
Proof.
  split; [ reflexivity | ].
  apply (requests_stay_under_api_root (R := Demo.requests)
           (VStr "https://app.ardoq.com") (VStr "secret") (VStr "acme")
           Demo.client).
  reflexivity.
Defined.

Lemma get_workspace_over_a_non_list_witness :
  VStr "a" <> VNone /\
  get_workspace (R := Demo.requests) (VStr "a")
    {| self := with_workspaces (VDict [("error", VStr "denied")]) Demo.client;
       sent := [] |}
  = (Raised (Exn TypeError VNone),
     {| self := with_workspaces (VDict [("error", VStr "denied")]) Demo.client;
        sent := [] |}) /\
  fst (get_workspace (R := Demo.requests) (VStr "a")
         {| self := with_workspaces (VDict []) Demo.client; sent := [] |})
  = Ok (Demo.ws_doc "a" "m1").
Proof.
  split; [ discriminate | split ].
  - apply (get_workspace_over_a_non_list (R := Demo.requests) (VStr "a")
             {| self := with_workspaces (VDict [("error", VStr "denied")])
                          Demo.client;
                sent := [] |}).
    + discriminate.
    + reflexivity.
  - rewrite (proj2 (get_workspace_over_a_non_list (R := Demo.requests)
                      (VStr "a")
                      {| self := with_workspaces (VDict []) Demo.client;
                         sent := [] |} ltac:(discriminate))
               eq_refl "a" eq_refl).
    reflexivity.
Defined.

Lemma network_down_witness :
  (forall h r, transport (Requests := Offline.requests) h r
               = Raised Offline.refused) /\
  fst (perform (R := Offline.requests) (Get_workspace (VStr "b")) Demo.cached)
    = Ok (Demo.ws_doc "b" "m2") /\
  sent (snd (perform (R := Offline.requests) (Get_workspace (VStr "b"))
               Demo.cached)) = [] /\
  fst (perform (R := Offline.requests) (Get_workspace (VStr "a"))
         (fresh Demo.client)) = Raised Offline.refused.
Proof.
  split; [ reflexivity | split; [ reflexivity | split ] ].
  - apply (proj2 (network_down (R := Offline.requests) Offline.refused
                      (fun _ _ => eq_refl) (Get_workspace (VStr "b"))
                      Demo.cached)
             (Demo.ws_doc "b" "m2")).
    reflexivity.
  - destruct (proj1 (network_down (R := Offline.requests) Offline.refused
                       (fun _ _ => eq_refl) (Get_workspace (VStr "a"))
                       (fresh Demo.client))) as [H|H].
    + discriminate H.
    + exact H.
Defined.

(** * Who reads the caches *)

Section Blind.

Context {R : Requests}.

Lemma request_of_same m resrc payload kwargs (w1 w2 : World) :
  same_config (self w1) (self w2) ->
  request_of m resrc payload kwargs w2 = request_of m resrc payload kwargs w1.
Proof.
  intros (Hb & _ & Ho & Hs). unfold request_of. now rewrite Hb, Ho, Hs.
Qed.

(** Two runs agree: same outcome, same log. *)
Definition agree {A} (x y : result A * World) : Prop :=
  fst x = fst y /\ sent (snd x) = sent (snd y).

Lemma helper_agree m resrc payload kwargs (w1 w2 : World) :
  same_config (self w1) (self w2) -> sent w1 = sent w2 ->
  agree (helper m resrc payload kwargs w1) (helper m resrc payload kwargs w2).
Proof.
  intros Hc Hs. rewrite !helper_run, (request_of_same _ _ _ _ w1 w2 Hc), Hs.
  split; [ reflexivity | ]. cbn [snd log sent]. now rewrite Hs.
Qed.

Lemma bind_ret_agree (m : M value) (w1 w2 : World) :
  agree (m w1) (m w2) ->
  agree (bind m (fun res => ret res) w1) (bind m (fun res => ret res) w2).
Proof. now rewrite !bind_ret. Qed.

Lemma agree_refl {A} (x : result A) (w1 w2 : World) :
  sent w1 = sent w2 -> agree (x, w1) (x, w2).
Proof. intros H. split; [ reflexivity | exact H ]. Qed.

Lemma get_model_agree (ws_id : value) (w1 w2 : World) :
  same_config (self w1) (self w2) -> sent w1 = sent w2 ->
  agree (get_model ws_id w1) (get_model ws_id w2).
Proof.
  intros Hc Hs.
  destruct ws_id as [ | | | |s| | ]; try (now apply agree_refl).
  rewrite !get_model_str, !_get_run.
  rewrite (request_of_same _ _ _ _ w1 w2 Hc), Hs.
  destruct (rbind (transport (sent w2)
                     (request_of GET ("workspace/" ++ s) VNone [] w1))
                  _unwrap_response) as [ws|e];
    [ | split; cbn; congruence ].
  cbv zeta.
  destruct (rbind (py_getitem ws (VStr "componentModel")) (str_add "model/"))
    as [resrc|e]; [ | split; cbn; congruence ].
  rewrite !_get_run.
  match goal with
  | |- context [request_of GET resrc VNone [] ?a] =>
      match goal with
      | |- context [request_of GET resrc VNone [] ?b] =>
          tryif constr_eq a b then fail else
            (rewrite (request_of_same GET resrc VNone [] b a))
      end
  end.
  - cbn [sent log self]. rewrite Hs.
    match goal with |- context [rbind ?t _unwrap_response] =>
      destruct (rbind t _unwrap_response) end; split; reflexivity.
  - destruct Hc as (Hb & Ht & Ho & Hse). repeat split; cbn; congruence.
Qed.

(** X18. Only [get_workspace] reads the caches.  For every other
    operation, two clients of the same configuration that have sent the
    same requests give the same outcome and issue the same requests,
    whatever [workspaces], [workspace] and [model] hold: [get_model] in
    particular fetches the workspace again even when it is cached. *)
Theorem caches_are_read_by_get_workspace_only (c : call) (w1 w2 : World) :
  (forall ws_id, c <> Get_workspace ws_id) ->
  same_config (self w1) (self w2) ->
  sent w1 = sent w2 ->
  fst (perform c w1) = fst (perform c w2) /\
  sent (snd (perform c w1)) = sent (snd (perform c w2)).
Proof.
  intros Hc Hcfg Hs.
  assert (Hh : forall m resrc payload kwargs,
             agree (helper m resrc payload kwargs w1)
                   (helper m resrc payload kwargs w2))
    by (intros; now apply helper_agree).
  change (agree (perform c w1) (perform c w2)).
  destruct c; try (now destruct (Hc ws_id)); cbn [perform].
  - rewrite !get_workspaces_run.
    change (request GET "workspace" None w2)
      with (request_of GET "workspace" VNone [] w2).
    rewrite (request_of_same _ _ _ _ w1 w2 Hcfg), Hs.
    change (request_of GET "workspace" VNone [] w1)
      with (request GET "workspace" None w1).
    destruct (rbind (transport (sent w2) (request GET "workspace" None w1))
                    _unwrap_response); split; reflexivity.
  - unfold create_workspace. destruct (is_None ws);
      [ now apply agree_refl | ].
    apply bind_ret_agree. exact (Hh POST _ _ _).
  - unfold del_workspace. destruct (is_None ws_id);
      [ now apply agree_refl | ].
    unfold bind at 1 3, lift. destruct (str_add "workspace/" ws_id);
      [ | now apply agree_refl ].
    apply bind_ret_agree. exact (Hh DELETE _ VNone _).
  - now apply get_model_agree.
  - unfold create_component. destruct (is_None comp);
      [ now apply agree_refl | ].
    apply bind_ret_agree. exact (Hh POST _ _ _).
  - unfold get_component. destruct (is_None ws_id);
      [ now apply agree_refl | ].
    destruct (negb (is_None comp_id)); unfold bind at 1 3, lift;
      match goal with |- context [match ?r with Ok _ => _ | Raised _ => _ end] =>
        destruct r end;
      try (now apply agree_refl);
      apply bind_ret_agree; exact (Hh GET _ VNone _).
  - unfold update_component.
    destruct (is_None ws_id || is_None comp_id || is_None comp);
      [ now apply agree_refl | ].
    unfold bind at 1 3, lift. destruct (str_add "component/" comp_id);
      [ | now apply agree_refl ].
    apply bind_ret_agree. exact (Hh PUT _ _ _).
  - unfold del_component. destruct (is_None comp_id);
      [ now apply agree_refl | ].
    unfold bind at 1 3, lift. destruct (str_add "component/" comp_id);
      [ | now apply agree_refl ].
    apply bind_ret_agree. exact (Hh DELETE _ VNone _).
  - unfold create_reference. destruct (is_None ref);
      [ now apply agree_refl | ].
    apply bind_ret_agree. exact (Hh POST _ _ _).
  - unfold get_reference. destruct (is_None ws_id);
      [ now apply agree_refl | ].
    cbv zeta. unfold bind at 1 3, lift.
    match goal with |- context [match ?r with Ok _ => _ | Raised _ => _ end] =>
      destruct r end;
      [ | now apply agree_refl ].
    apply bind_ret_agree. exact (Hh GET _ VNone _).
  - unfold del_reference. destruct (is_None ref_id);
      [ now apply agree_refl | ].
    unfold bind at 1 3, lift. destruct (str_add "reference/" ref_id);
      [ | now apply agree_refl ].
    apply bind_ret_agree. exact (Hh DELETE _ VNone _).
Qed.

End Blind.

Lemma caches_are_read_by_get_workspace_only_witness :
  same_config (self (fresh Demo.client)) (self Demo.cached) /\
  fst (perform (R := Demo.requests) (Get_model (VStr "a")) (fresh Demo.client))
    = fst (perform (R := Demo.requests) (Get_model (VStr "a")) Demo.cached) /\
  sent (snd (perform (R := Demo.requests) (Get_model (VStr "a"))
               (fresh Demo.client)))
    = sent (snd (perform (R := Demo.requests) (Get_model (VStr "a"))
                   Demo.cached)).
Proof.
  split; [ repeat split | ].
  apply (caches_are_read_by_get_workspace_only (R := Demo.requests)
           (Get_model (VStr "a")) (fresh Demo.client) Demo.cached).
  - intros ws_id. discriminate.
  - repeat split.
  - reflexivity.
Defined.
